(** * AI Academy Dashboard: the client-side authentication provider and the
      server-side database client

    A shallow embedding of [AuthProvider] (the React context that wraps the
    Supabase auth SDK) and of [lib/supabase-server.ts].

    Asynchronous functions are embedded as finite trees of synchronous
    actions and suspension points ([prog]); the remote service is an
    oracle that settles every awaited request by resolving or rejecting
    it.  The provider itself is a transition system over the published
    state, the one-shot latch, the safety timer, the subscription and the
    suspended asynchronous functions. *)

From Stdlib Require Import List String Ascii Bool Arith Lia NArith.
Import ListNotations.
Open Scope string_scope.
Open Scope list_scope.

(** ** Data model *)

(** JavaScript truthiness of an optional string: [null], [undefined] and
    the empty string are falsy. *)
Definition truthy (v : option string) : option string :=
  match v with
  | Some s => if String.eqb s "" then None else Some s
  | None => None
  end.

(** [User] of the auth SDK: only the fields the provider reads. *)
Record User := {
  u_id : string;
  u_email : option string;
  u_user_name : option string   (* user_metadata?.user_name *)
}.

Record Session := {
  s_access_token : string;
  s_user : option User          (* newSession?.user *)
}.

(** A row of the [participants] table. *)
Record Participant := {
  p_id : string;
  p_email : option string;
  p_github_username : option string;
  p_auth_user_id : option string;
  p_is_admin : option bool
}.

(** A row of the [admin_users] table. *)
Record AdminUser := {
  a_user_id : string;
  a_is_active : bool
}.

Record AuthError := { ae_message : string }.

(** [UserStatus | 'no_profile']; the provider itself only ever publishes
    ['approved'], ['no_profile'] and [null]. *)
Inductive ProfileStatus :=
| approved
| no_profile
| other_status (name : string).

(** [{ data: { user }, error }] of [auth.getUser()]. *)
Record GetUserResult := {
  gu_user : option User;
  gu_error : option AuthError
}.

Inductive exn := Error (message : string).

(** ** Requests to the remote service *)

Inductive column := col_email | col_github_username | col_auth_user_id.

Inductive request :=
| AuthGetSession
| AuthGetUser
| SelectParticipant (c : column) (v : string)
    (* from('participants').select('*').eq(c, v).single() *)
| SelectAdminUser (user_id : string)
    (* from('admin_users').select('*').eq('user_id', _).eq('is_active', true).single() *)
| AuthSignOut
| AuthSignInWithPassword (email password : string)
| AuthSignInWithOtp (email emailRedirectTo : string).

(** What the awaited promise resolves to, as far as the provider
    destructures it: [data] for the table queries, [error] for the
    credential calls. *)
Definition response (q : request) : Type :=
  match q with
  | AuthGetSession => option Session
  | AuthGetUser => GetUserResult
  | SelectParticipant _ _ => option Participant
  | SelectAdminUser _ => option AdminUser
  | AuthSignOut => option AuthError
  | AuthSignInWithPassword _ _ => option AuthError
  | AuthSignInWithOtp _ _ => option AuthError
  end.

Inductive outcome (A : Type) :=
| Resolved (a : A)
| Rejected (e : exn).
Arguments Resolved {A} a.
Arguments Rejected {A} e.

(** ** Synchronous actions *)

Inductive action :=
| setUser (u : option User)
| setSession (s : option Session)
| setParticipant (p : option Participant)
| setIsLoading (b : bool)
| setIsActualAdmin (b : bool)
| setUserStatus (s : option ProfileStatus)
| clearTimeout
| updateAuthUserId (participant_id auth_user_id : string)
    (* from('participants').update({auth_user_id}).eq('id', _).then(() => {}) *)
| console_error (label : string)
| console_log (label : string)
| console_warn (label : string).

(** ** Asynchronous functions *)

Inductive prog (R : Type) : Type :=
| Ret (r : R)
| Throw (e : exn)
| Do (a : action) (k : prog R)
| Await (q : request) (k : outcome (response q) -> prog R).
Arguments Ret {R} r.
Arguments Throw {R} e.
Arguments Do {R} a k.
Arguments Await {R} q k.

Fixpoint bind {A B : Type} (p : prog A) (f : A -> prog B) : prog B :=
  match p with
  | Ret r => f r
  | Throw e => Throw e
  | Do a k => Do a (bind k f)
  | Await q k => Await q (fun o => bind (k o) f)
  end.

(** [try { p } catch (error) { h error }] *)
Fixpoint try_catch {R : Type} (p : prog R) (h : exn -> prog R) : prog R :=
  match p with
  | Ret r => Ret r
  | Throw e => h e
  | Do a k => Do a (try_catch k h)
  | Await q k => Await q (fun o => try_catch (k o) h)
  end.

(** [try { p } finally { f }], for a [finally] block that completes
    normally. *)
Fixpoint try_finally {R : Type} (p : prog R) (f : prog unit) : prog R :=
  match p with
  | Ret r => bind f (fun _ => Ret r)
  | Throw e => bind f (fun _ => Throw e)
  | Do a k => Do a (try_finally k f)
  | Await q k => Await q (fun o => try_finally (k o) f)
  end.

(** [await] of a request: a rejected promise throws at the [await]. *)
Definition await (q : request) : prog (response q) :=
  Await q (fun o => match o with
                    | Resolved a => Ret a
                    | Rejected e => Throw e
                    end).

Definition act (a : action) : prog unit := Do a (Ret tt).

Declare Scope prog_scope.
Delimit Scope prog_scope with prog.
Notation "x <- p ;; k" := (bind p (fun x => k))
  (at level 61, p at next level, right associativity) : prog_scope.
Notation "p ;; k" := (bind p (fun _ => k))
  (at level 61, right associativity) : prog_scope.
Open Scope prog_scope.

(** ** The identity resolver *)

Definition fetchParticipant (authUser : User) : prog (option Participant) :=
  try_catch
    ((* Try to find by email first *)
     byEmail <- match truthy (u_email authUser) with
                | Some email => await (SelectParticipant col_email email)
                | None => Ret None
                end ;;
     match byEmail with
     | Some data => Ret (Some data)
     | None =>
       (* Try by github_username *)
       byName <- match truthy (u_user_name authUser) with
                 | Some user_name =>
                     await (SelectParticipant col_github_username user_name)
                 | None => Ret None
                 end ;;
       match byName with
       | Some data => Ret (Some data)
       | None =>
         (* Try by auth_user_id *)
         data <- await (SelectParticipant col_auth_user_id (u_id authUser)) ;;
         match data with
         | Some data => Ret (Some data)
         | None => Ret None
         end
       end
     end)
    (fun error => act (console_error "fetchParticipant error:") ;; Ret None).

Definition checkAdminUser (userId : string) : prog bool :=
  try_catch
    (data <- await (SelectAdminUser userId) ;;
     Ret (match data with Some _ => true | None => false end))
    (fun _ => Ret false).

(** [participantData.is_admin || false] *)
Definition is_admin_or_false (p : Participant) : bool :=
  match p_is_admin p with
  | Some b => b
  | None => false
  end.

Definition refreshParticipant (user : option User) : prog unit :=
  match user with
  | Some user =>
      participantData <- fetchParticipant user ;;
      match participantData with
      | Some participantData =>
          act (setParticipant (Some participantData)) ;;
          act (setUserStatus (Some approved)) ;;
          act (setIsActualAdmin (is_admin_or_false participantData))
      | None => Ret tt
      end
  | None => Ret tt
  end.

(** The asynchronous body of the mount effect. *)
Definition initAuth : prog unit :=
  try_finally
    (try_catch
       ((* Get session *)
        initialSession <- await AuthGetSession ;;
        match initialSession with
        | None =>
            act (setIsLoading false) ;;
            act clearTimeout
        | Some initialSession =>
            (* Validate session *)
            r <- await AuthGetUser ;;
            match gu_error r, gu_user r with
            | None, Some validatedUser =>
                act (setSession (Some initialSession)) ;;
                act (setUser (Some validatedUser)) ;;
                (* Fetch participant *)
                participantData <- fetchParticipant validatedUser ;;
                match participantData with
                | Some participantData =>
                    act (setParticipant (Some participantData)) ;;
                    act (setUserStatus (Some approved)) ;;
                    act (setIsActualAdmin (is_admin_or_false participantData)) ;;
                    (* Link auth_user_id if needed *)
                    match truthy (p_auth_user_id participantData) with
                    | None =>
                        act (updateAuthUserId (p_id participantData)
                                              (u_id validatedUser))
                    | Some _ => Ret tt
                    end
                | None => act (setUserStatus (Some no_profile))
                end ;;
                (* Check admin_users table *)
                isAdminUser <- checkAdminUser (u_id validatedUser) ;;
                if isAdminUser : bool then
                  act (setIsActualAdmin true) ;;
                  act (setUserStatus (Some approved))
                else Ret tt
            | _, _ =>
                act (console_log "Session validation failed:") ;;
                act (setIsLoading false) ;;
                act clearTimeout
            end
        end)
       (fun error => act (console_error "Auth initialization error:")))
    (act (setIsLoading false) ;;
     act clearTimeout).

Inductive AuthChangeEvent :=
| SIGNED_IN
| SIGNED_OUT
| other_event (name : string).

(** The callback passed to [auth.onAuthStateChange]. *)
Definition onAuthStateChange (event : AuthChangeEvent)
    (newSession : option Session) : prog unit :=
  match event with
  | SIGNED_OUT =>
      act (setSession None) ;;
      act (setUser None) ;;
      act (setParticipant None) ;;
      act (setIsActualAdmin false) ;;
      act (setUserStatus None)
  | SIGNED_IN =>
      match newSession with
      | Some session =>
          match s_user session with
          | Some user =>
              act (setSession (Some session)) ;;
              act (setUser (Some user)) ;;
              try_catch
                (participantData <- fetchParticipant user ;;
                 match participantData with
                 | Some participantData =>
                     act (setParticipant (Some participantData)) ;;
                     act (setUserStatus (Some approved)) ;;
                     act (setIsActualAdmin (is_admin_or_false participantData))
                 | None => act (setUserStatus (Some no_profile))
                 end ;;
                 isAdminUser <- checkAdminUser (u_id user) ;;
                 if isAdminUser : bool then
                   act (setIsActualAdmin true) ;;
                   act (setUserStatus (Some approved))
                 else Ret tt)
                (fun error => act (console_error "Auth state change error:"))
          | None => Ret tt
          end
      | None => Ret tt
      end
  | other_event _ => Ret tt
  end.

Definition signOut : prog unit :=
  _ <- await AuthSignOut ;;
  act (setUser None) ;;
  act (setSession None) ;;
  act (setParticipant None) ;;
  act (setIsActualAdmin false) ;;
  act (setUserStatus None).

Definition signInWithEmail (email password : string) : prog (option AuthError) :=
  error <- await (AuthSignInWithPassword email password) ;;
  Ret error.

(** [origin] is [window.location.origin]. *)
Definition signInWithMagicLink (origin email : string) : prog (option AuthError) :=
  error <- await (AuthSignInWithOtp email (origin ++ "/auth/callback")%string) ;;
  Ret error.

(** ** Published state *)

Record AuthState := {
  user : option User;
  session : option Session;
  participant : option Participant;
  isLoading : bool;
  isActualAdmin : bool;
  viewAsUser : bool;
  userStatus : option ProfileStatus
}.

(** The [useState] initial values. *)
Definition initialState : AuthState :=
  {| user := None; session := None; participant := None; isLoading := true;
     isActualAdmin := false; viewAsUser := false; userStatus := None |}.

(** [const isAdmin = isActualAdmin && !viewAsUser], computed at every
    render. *)
Definition isAdmin (st : AuthState) : bool :=
  isActualAdmin st && negb (viewAsUser st).

(** The state part of the value handed to [AuthContext.Provider]. *)
Record AuthContextType := {
  ctx_user : option User;
  ctx_session : option Session;
  ctx_participant : option Participant;
  ctx_isLoading : bool;
  ctx_isAdmin : bool;
  ctx_isActualAdmin : bool;
  ctx_viewAsUser : bool;
  ctx_userStatus : option ProfileStatus
}.

Definition contextValue (st : AuthState) : AuthContextType :=
  {| ctx_user := user st;
     ctx_session := session st;
     ctx_participant := participant st;
     ctx_isLoading := isLoading st;
     ctx_isAdmin := isAdmin st;
     ctx_isActualAdmin := isActualAdmin st;
     ctx_viewAsUser := viewAsUser st;
     ctx_userStatus := userStatus st |}.

Definition setViewAsUser (v : bool) (st : AuthState) : AuthState :=
  {| user := user st; session := session st; participant := participant st;
     isLoading := isLoading st; isActualAdmin := isActualAdmin st;
     viewAsUser := v; userStatus := userStatus st |}.

(** The effect of one action on the published state: the state setters
    write their field, everything else leaves the state alone. *)
Definition publish (a : action) (st : AuthState) : AuthState :=
  match a with
  | setUser u =>
      {| user := u; session := session st; participant := participant st;
         isLoading := isLoading st; isActualAdmin := isActualAdmin st;
         viewAsUser := viewAsUser st; userStatus := userStatus st |}
  | setSession s =>
      {| user := user st; session := s; participant := participant st;
         isLoading := isLoading st; isActualAdmin := isActualAdmin st;
         viewAsUser := viewAsUser st; userStatus := userStatus st |}
  | setParticipant p =>
      {| user := user st; session := session st; participant := p;
         isLoading := isLoading st; isActualAdmin := isActualAdmin st;
         viewAsUser := viewAsUser st; userStatus := userStatus st |}
  | setIsLoading b =>
      {| user := user st; session := session st; participant := participant st;
         isLoading := b; isActualAdmin := isActualAdmin st;
         viewAsUser := viewAsUser st; userStatus := userStatus st |}
  | setIsActualAdmin b =>
      {| user := user st; session := session st; participant := participant st;
         isLoading := isLoading st; isActualAdmin := b;
         viewAsUser := viewAsUser st; userStatus := userStatus st |}
  | setUserStatus s =>
      {| user := user st; session := session st; participant := participant st;
         isLoading := isLoading st; isActualAdmin := isActualAdmin st;
         viewAsUser := viewAsUser st; userStatus := s |}
  | _ => st
  end.

(** ** Running an asynchronous function to completion *)

(** The remote service as the provider sees it: every request settles. *)
Definition backend := forall q : request, outcome (response q).

Inductive entry :=
| Did (a : action)
| Asked (q : request).

(** The trace of actions and requests, in program order, and how the
    promise of the asynchronous function settles. *)
Fixpoint run {R : Type} (b : backend) (p : prog R) : list entry * outcome R :=
  match p with
  | Ret r => ([], Resolved r)
  | Throw e => ([], Rejected e)
  | Do a k => let (t, o) := run b k in (Did a :: t, o)
  | Await q k => let (t, o) := run b (k (b q)) in (Asked q :: t, o)
  end.

Definition trace {R : Type} (b : backend) (p : prog R) : list entry :=
  fst (run b p).

Definition settles {R : Type} (b : backend) (p : prog R) : outcome R :=
  snd (run b p).

Fixpoint asked (t : list entry) : list request :=
  match t with
  | [] => []
  | Asked q :: t => q :: asked t
  | Did _ :: t => asked t
  end.

Fixpoint done (t : list entry) : list action :=
  match t with
  | [] => []
  | Did a :: t => a :: done t
  | Asked _ :: t => done t
  end.

Definition publishAll (l : list action) (st : AuthState) : AuthState :=
  fold_left (fun st a => publish a st) l st.

(** The published state once the function has run to completion. *)
Definition after {R : Type} (b : backend) (p : prog R) (st : AuthState) : AuthState :=
  publishAll (done (trace b p)) st.

(** ** The provider as a transition system *)

Inductive timer_status := timer_pending | timer_cleared | timer_fired.

(** The handle returned by [setTimeout(..., 10000)]. *)
Record Timer := {
  deadline : N;
  status : timer_status
}.

(** Which asynchronous function a suspended continuation belongs to. *)
Inductive origin :=
| from_initAuth
| from_listener
| from_signOut
| from_refreshParticipant
| from_signIn
| from_timeout.

(** An asynchronous function parked at an [await]. *)
Record Suspended := {
  owner : origin;
  waiting : request;
  resume : outcome (response waiting) -> prog unit
}.

Record Provider := {
  published : AuthState;
  authInitialized : bool;            (* useRef(false) *)
  safetyTimeout : option Timer;
  subscribed : bool;                 (* the cleanup of the effect is registered *)
  clock : N;                         (* milliseconds *)
  suspended : list Suspended;
  effects : list action;             (* everything performed, most recent first *)
  uncaught : list exn                (* rejections handed back to a caller *)
}.

Definition initialProvider : Provider :=
  {| published := initialState; authInitialized := false;
     safetyTimeout := None; subscribed := false; clock := 0%N;
     suspended := []; effects := []; uncaught := [] |}.

(** [clearTimeout(safetyTimeout)]: only a pending timer is affected. *)
Definition cancel (t : option Timer) : option Timer :=
  match t with
  | Some {| deadline := d; status := timer_pending |} =>
      Some {| deadline := d; status := timer_cleared |}
  | _ => t
  end.

Definition perform (a : action) (P : Provider) : Provider :=
  {| published := publish a (published P);
     authInitialized := authInitialized P;
     safetyTimeout := match a with
                      | clearTimeout => cancel (safetyTimeout P)
                      | _ => safetyTimeout P
                      end;
     subscribed := subscribed P;
     clock := clock P;
     suspended := suspended P;
     effects := a :: effects P;
     uncaught := uncaught P |}.

Definition park (t : Suspended) (P : Provider) : Provider :=
  {| published := published P; authInitialized := authInitialized P;
     safetyTimeout := safetyTimeout P; subscribed := subscribed P;
     clock := clock P; suspended := suspended P ++ [t];
     effects := effects P; uncaught := uncaught P |}.

Definition reject (e : exn) (P : Provider) : Provider :=
  {| published := published P; authInitialized := authInitialized P;
     safetyTimeout := safetyTimeout P; subscribed := subscribed P;
     clock := clock P; suspended := suspended P;
     effects := effects P; uncaught := e :: uncaught P |}.

(** Run an asynchronous function up to its next [await]. *)
Fixpoint advance (o : origin) (p : prog unit) (P : Provider) : Provider :=
  match p with
  | Ret _ => P
  | Throw e => reject e P
  | Do a k => advance o k (perform a P)
  | Await q k => park {| owner := o; waiting := q; resume := k |} P
  end.

Fixpoint remove_nth {A : Type} (i : nat) (l : list A) : list A :=
  match l, i with
  | [], _ => []
  | _ :: l, 0 => l
  | x :: l, S i => x :: remove_nth i l
  end.

Inductive event :=
| Mount                                   (* the effect runs *)
| Unmount                                 (* the cleanup of the effect runs *)
| Elapse (d : N)                          (* d milliseconds pass *)
| Settle (i : nat) (b : backend)          (* the request of the i-th suspended function settles *)
| AuthStateChange (e : AuthChangeEvent) (newSession : option Session)
| call_signOut
| call_refreshParticipant                 (* through the context value of the latest render *)
| call_setViewAsUser (v : bool)
| call_signInWithEmail (email password : string)
| call_signInWithMagicLink (origin email : string)
| call_refreshParticipant_held (user : option User).
    (* through a reference kept from an earlier render, whose closure
       holds the [user] of that render *)

(** The body of [useEffect]. *)
Definition mount (P : Provider) : Provider :=
  if authInitialized P then P
  else
    let P1 :=
      {| published := published P; authInitialized := true;
         safetyTimeout := Some {| deadline := (clock P + 10000)%N;
                                  status := timer_pending |};
         subscribed := subscribed P; clock := clock P;
         suspended := suspended P; effects := effects P;
         uncaught := uncaught P |} in
    let P2 := advance from_initAuth initAuth P1 in
    {| published := published P2; authInitialized := authInitialized P2;
       safetyTimeout := safetyTimeout P2; subscribed := true;
       clock := clock P2; suspended := suspended P2;
       effects := effects P2; uncaught := uncaught P2 |}.

(** The function the effect returns. *)
Definition unmount (P : Provider) : Provider :=
  if subscribed P then
    {| published := published P; authInitialized := authInitialized P;
       safetyTimeout := cancel (safetyTimeout P); subscribed := false;
       clock := clock P; suspended := suspended P;
       effects := effects P; uncaught := uncaught P |}
  else P.

(** The callback of the safety timeout. *)
Definition timeoutCallback : prog unit :=
  act (console_warn "Auth initialization timed out") ;;
  act (setIsLoading false).

Definition elapse (d : N) (P : Provider) : Provider :=
  let tick (t : option Timer) :=
    {| published := published P; authInitialized := authInitialized P;
       safetyTimeout := t; subscribed := subscribed P;
       clock := (clock P + d)%N; suspended := suspended P;
       effects := effects P; uncaught := uncaught P |} in
  match safetyTimeout P with
  | Some {| deadline := dl; status := timer_pending |} =>
      if (dl <=? clock P + d)%N then
        advance from_timeout timeoutCallback
          (tick (Some {| deadline := dl; status := timer_fired |}))
      else tick (safetyTimeout P)
  | _ => tick (safetyTimeout P)
  end.

Definition settle (i : nat) (b : backend) (P : Provider) : Provider :=
  match nth_error (suspended P) i with
  | Some t =>
      advance (owner t) (resume t (b (waiting t)))
        {| published := published P; authInitialized := authInitialized P;
           safetyTimeout := safetyTimeout P; subscribed := subscribed P;
           clock := clock P; suspended := remove_nth i (suspended P);
           effects := effects P; uncaught := uncaught P |}
  | None => P
  end.

Definition step (P : Provider) (ev : event) : Provider :=
  match ev with
  | Mount => mount P
  | Unmount => unmount P
  | Elapse d => elapse d P
  | Settle i b => settle i b P
  | AuthStateChange e newSession =>
      if subscribed P then advance from_listener (onAuthStateChange e newSession) P
      else P
  | call_signOut => advance from_signOut signOut P
  | call_refreshParticipant =>
      advance from_refreshParticipant
        (refreshParticipant (user (published P))) P
  | call_setViewAsUser v =>
      {| published := setViewAsUser v (published P);
         authInitialized := authInitialized P;
         safetyTimeout := safetyTimeout P; subscribed := subscribed P;
         clock := clock P; suspended := suspended P;
         effects := effects P; uncaught := uncaught P |}
  | call_signInWithEmail email password =>
      advance from_signIn (signInWithEmail email password ;; Ret tt) P
  | call_signInWithMagicLink origin email =>
      advance from_signIn (signInWithMagicLink origin email ;; Ret tt) P
  | call_refreshParticipant_held user =>
      advance from_refreshParticipant (refreshParticipant user) P
  end.

Definition steps (P : Provider) (evs : list event) : Provider :=
  fold_left step evs P.

Definition reachable (P : Provider) : Prop :=
  exists evs, P = steps initialProvider evs.

Definition is_initAuth (o : origin) : bool :=
  match o with from_initAuth => true | _ => false end.

(** [initAuth] is still parked at one of its [await]s. *)
Definition bootstrapping (P : Provider) : bool :=
  existsb (fun t => is_initAuth (owner t)) (suspended P).

(** [initAuth] was started and has run to its end. *)
Definition bootstrapCompleted (P : Provider) : bool :=
  authInitialized P && negb (bootstrapping P).

Definition timerStatus (P : Provider) : option timer_status :=
  option_map status (safetyTimeout P).

(** ** Properties of asynchronous functions *)

(** No [await]: the function runs to its end in the current turn. *)
Fixpoint synchronous {R : Type} (p : prog R) : bool :=
  match p with
  | Ret _ | Throw _ => true
  | Do _ k => synchronous k
  | Await _ _ => false
  end.

(** However the requests settle, no action satisfying [bad] is performed. *)
Fixpoint never (bad : action -> bool) {R : Type} (p : prog R) : Prop :=
  match p with
  | Ret _ | Throw _ => True
  | Do a k => bad a = false /\ never bad k
  | Await q k => forall o, never bad (k o)
  end.

(** However the requests settle, the function completes normally. *)
Fixpoint total {R : Type} (p : prog R) : Prop :=
  match p with
  | Ret _ => True
  | Throw _ => False
  | Do _ k => total k
  | Await q k => forall o, total (k o)
  end.

Definition is_clearTimeout (a : action) : bool :=
  match a with clearTimeout => true | _ => false end.

Definition is_loading_true (a : action) : bool :=
  match a with setIsLoading true => true | _ => false end.

Definition is_updateAuthUserId (a : action) : bool :=
  match a with updateAuthUserId _ _ => true | _ => false end.

Definition is_loading_false (a : action) : bool :=
  match a with setIsLoading false => true | _ => false end.

(** However the requests settle, the function ends by calling
    [clearTimeout], with [setIsLoading(false)] called before it unless
    loading is over already ([loaded]), and does not suspend once the
    timer is cleared. *)
Fixpoint completes (loaded : bool) {R : Type} (p : prog R) : Prop :=
  match p with
  | Ret _ | Throw _ => False
  | Do a k => if is_clearTimeout a then loaded = true /\ synchronous k = true
              else completes (loaded || is_loading_false a) k
  | Await q k => forall o, completes loaded (k o)
  end.

(** ** The invariant of the provider *)

Definition init_count (l : list Suspended) : nat :=
  List.length (filter (fun t => is_initAuth (owner t)) l).

(** What the suspended functions may still do: none publishes
    [loading = true]; the bootstrap ends by clearing the timer, the others
    never touch it. *)
Definition tasks_ok (loaded : bool) (l : list Suspended) : Prop :=
  forall t, In t l -> forall o,
    never is_loading_true (resume t o)
    /\ if is_initAuth (owner t) then completes loaded (resume t o)
       else never is_clearTimeout (resume t o).

Definition timer_ok (P : Provider) : Prop :=
  match safetyTimeout P with
  | None =>
      authInitialized P = false /\ subscribed P = false
      /\ bootstrapping P = false
  | Some t =>
      authInitialized P = true
      /\ match status t with
         | timer_pending => (clock P < deadline t)%N /\ bootstrapping P = true
         | timer_cleared => bootstrapping P = true -> subscribed P = false
         | timer_fired =>
             (deadline t <= clock P)%N /\ isLoading (published P) = false
         end
      /\ (bootstrapping P = false -> isLoading (published P) = false)
  end.

(** The timer while the bootstrap is running a turn. *)
Definition timer_mid (P : Provider) : Prop :=
  authInitialized P = true
  /\ exists t, safetyTimeout P = Some t
       /\ match status t with
          | timer_pending => (clock P < deadline t)%N
          | timer_cleared => subscribed P = false
          | timer_fired =>
              (deadline t <= clock P)%N /\ isLoading (published P) = false
          end.

Definition invariant (P : Provider) : Prop :=
  tasks_ok (negb (isLoading (published P))) (suspended P)
  /\ init_count (suspended P) <= 1
  /\ timer_ok P.

(** ** The lookup strategies, as the specification words them *)

Definition strategy := (column * string)%type.

Definition query (s : strategy) : request :=
  SelectParticipant (fst s) (snd s).

(** What the point lookup of a strategy yields. *)
Definition lookup (b : backend) (s : strategy) : outcome (option Participant) :=
  b (SelectParticipant (fst s) (snd s)).

(** By email if the identity carries one, then by handle if present, then
    by the identifier of the external identity. *)
Definition strategies (u : User) : list strategy :=
  match truthy (u_email u) with
  | Some email => [(col_email, email)]
  | None => []
  end ++
  match truthy (u_user_name u) with
  | Some handle => [(col_github_username, handle)]
  | None => []
  end ++
  [(col_auth_user_id, u_id u)].

(** Walk the strategies in order: the strategies tried, and the first
    match.  A rejected lookup ends the walk with no match. *)
Fixpoint first_match (b : backend) (l : list strategy)
  : list strategy * option Participant :=
  match l with
  | [] => ([], None)
  | s :: l =>
      match lookup b s with
      | Resolved (Some p) => ([s], Some p)
      | Resolved None => let (tried, r) := first_match b l in (s :: tried, r)
      | Rejected _ => ([s], None)
      end
  end.

(** An active Admin Grant is found for the external identity. *)
Definition activeGrant (b : backend) (userId : string) : bool :=
  match b (SelectAdminUser userId) with
  | Resolved (Some _) => true
  | _ => false
  end.

(** The number of link backfills among the actions of a trace. *)
Definition backfills (t : list entry) : nat :=
  List.length (filter is_updateAuthUserId (done t)).

(** What [signOut] and the signed-out event leave of a state. *)
Definition cleared (st : AuthState) : AuthState :=
  {| user := None; session := None; participant := None;
     isLoading := isLoading st; isActualAdmin := false;
     viewAsUser := viewAsUser st; userStatus := None |}.

(** The participant the lookup strategies find for an identity. *)
Definition found (b : backend) (u : User) : option Participant :=
  snd (first_match b (strategies u)).

(** What identity resolution publishes after the participant lookup. *)
Definition publishLookup (found : option Participant) : list action :=
  match found with
  | Some p => [setParticipant (Some p); setUserStatus (Some approved);
               setIsActualAdmin (is_admin_or_false p)]
  | None => [setUserStatus (Some no_profile)]
  end.

(** The repair of a matched participant whose stored link is absent. *)
Definition backfill (found : option Participant) (u : User) : list action :=
  match found with
  | Some p => match truthy (p_auth_user_id p) with
              | None => [updateAuthUserId (p_id p) (u_id u)]
              | Some _ => []
              end
  | None => []
  end.

(** What identity resolution publishes after the admin-grant check. *)
Definition publishGrant (grant : bool) : list action :=
  if grant then [setIsActualAdmin true; setUserStatus (Some approved)] else [].

(** The Identity Resolver sequence for an identity, in the order the
    bootstrap runs it once session and user are published: the
    participant lookup, what it publishes, the repair of the link, the
    admin-grant query, what it publishes. *)
Definition identityResolver (b : backend) (u : User) : list entry :=
  trace b (fetchParticipant u)
  ++ map Did (publishLookup (found b u) ++ backfill (found b u) u)
  ++ Asked (SelectAdminUser (u_id u))
  :: map Did (publishGrant (activeGrant b (u_id u))).

(** The outcome of identity resolution for an identity, from the state
    [st] before it to the state [st'] after it. *)
Definition resolution_outcome (b : backend) (u : User) (st st' : AuthState) : Prop :=
  (found b u = None ->
     participant st' = participant st
     /\ isActualAdmin st' = isActualAdmin st || activeGrant b (u_id u)
     /\ (activeGrant b (u_id u) = false -> userStatus st' = Some no_profile))
  /\ (activeGrant b (u_id u) = true ->
        isActualAdmin st' = true /\ userStatus st' = Some approved).

(** ** The server-side database client ([lib/supabase-server.ts]) *)

Module SupabaseServer.

(** Values of environment variables are JavaScript strings: sequences of
    UTF-16 code units. *)
Definition jsstring := list N.

(** WhiteSpace and LineTerminator of ECMAScript, what
    [String.prototype.trim] strips. *)
Definition is_white_space (c : N) : bool :=
  ((9 <=? c) && (c <=? 13) || (c =? 32) || (c =? 160) || (c =? 5760)
   || (8192 <=? c) && (c <=? 8202) || (c =? 8232) || (c =? 8233)
   || (c =? 8239) || (c =? 8287) || (c =? 12288) || (c =? 65279))%N.

Fixpoint trimStart (s : jsstring) : jsstring :=
  match s with
  | c :: s' => if is_white_space c then trimStart s' else s
  | [] => []
  end.

Definition trimEnd (s : jsstring) : jsstring := rev (trimStart (rev s)).

Definition trim (s : jsstring) : jsstring := trimEnd (trimStart s).

(** [process.env] *)
Definition environment := string -> option jsstring.

Definition missing_env_message (name : string) : string :=
  ("Missing env: " ++ name
   ++ ". Set it in Vercel → Project → Settings → Environment Variables.")%string.

Definition getRequiredEnv (env : environment) (name : string) : outcome jsstring :=
  match env name with
  | Some value =>
      match trim value with
      | [] => Rejected (Error (missing_env_message name))
      | _ :: _ => Resolved value
      end
  | None => Rejected (Error (missing_env_message name))
  end.

(** [createServerClient] of [@supabase/ssr] and the cookie store of
    [next/headers] are taken as given. *)
Definition createServerSupabaseClient {Client CookieStore : Type}
    (createServerClient : jsstring -> jsstring -> CookieStore -> Client)
    (env : environment) (cookieStore : CookieStore) : outcome Client :=
  match getRequiredEnv env "NEXT_PUBLIC_SUPABASE_URL" with
  | Rejected e => Rejected e
  | Resolved url =>
      match getRequiredEnv env "NEXT_PUBLIC_SUPABASE_ANON_KEY" with
      | Rejected e => Rejected e
      | Resolved anonKey => Resolved (createServerClient url anonKey cookieStore)
      end
  end.

(** The variable is unset, or holds nothing but white space. *)
Definition unset_or_blank (env : environment) (name : string) : Prop :=
  match env name with
  | Some value => forallb is_white_space value = true
  | None => True
  end.

End SupabaseServer.

(** ** Sample data *)

Module Sample.

Definition alice : User :=
  {| u_id := "u1"; u_email := Some "a@x.com"; u_user_name := Some "alice" |}.

Definition alice_session : Session :=
  {| s_access_token := "t1"; s_user := Some alice |}.

(** A participant registered by email, not yet linked. *)
Definition alice_row : Participant :=
  {| p_id := "p1"; p_email := Some "a@x.com"; p_github_username := None;
     p_auth_user_id := None; p_is_admin := Some false |}.

Definition grant : AdminUser := {| a_user_id := "u1"; a_is_active := true |}.

(** Alice has a session, a participant row found by email, no grant. *)
Definition registered : backend := fun q =>
  match q return outcome (response q) with
  | AuthGetSession => Resolved (Some alice_session)
  | AuthGetUser => Resolved {| gu_user := Some alice; gu_error := None |}
  | SelectParticipant col_email "a@x.com" => Resolved (Some alice_row)
  | SelectParticipant _ _ => Resolved None
  | SelectAdminUser _ => Resolved None
  | AuthSignOut => Resolved None
  | AuthSignInWithPassword _ _ => Resolved None
  | AuthSignInWithOtp _ _ => Resolved None
  end.

(** Alice has a session, no participant row, an active grant. *)
Definition granted : backend := fun q =>
  match q return outcome (response q) with
  | AuthGetSession => Resolved (Some alice_session)
  | AuthGetUser => Resolved {| gu_user := Some alice; gu_error := None |}
  | SelectParticipant _ _ => Resolved None
  | SelectAdminUser _ => Resolved (Some grant)
  | AuthSignOut => Resolved None
  | AuthSignInWithPassword _ _ => Resolved None
  | AuthSignInWithOtp _ _ => Resolved None
  end.

(** Alice has a session, no participant row, no grant. *)
Definition unknown : backend := fun q =>
  match q return outcome (response q) with
  | AuthGetSession => Resolved (Some alice_session)
  | AuthGetUser => Resolved {| gu_user := Some alice; gu_error := None |}
  | SelectParticipant _ _ => Resolved None
  | SelectAdminUser _ => Resolved None
  | AuthSignOut => Resolved (Some {| ae_message := "Failed to fetch" |})
  | AuthSignInWithPassword _ _ => Resolved None
  | AuthSignInWithOtp _ _ => Resolved None
  end.

(** Alice has a participant row that is not an administrator, and an
    active grant. *)
Definition granted_and_registered : backend := fun q =>
  match q return outcome (response q) with
  | SelectAdminUser _ => Resolved (Some grant)
  | q => registered q
  end.

(** Nobody is signed in. *)
Definition signed_out : backend := fun q =>
  match q return outcome (response q) with
  | AuthGetSession => Resolved None
  | q => unknown q
  end.

(** A stored session that the identity provider no longer accepts. *)
Definition stale : backend := fun q =>
  match q return outcome (response q) with
  | AuthGetUser =>
      Resolved {| gu_user := None;
                  gu_error := Some {| ae_message := "invalid JWT" |} |}
  | q => unknown q
  end.

(** Every request is rejected. *)
Definition unreachable : backend := fun q => Rejected (Error "Failed to fetch").

(** An environment whose URL is blank (two spaces and a tab). *)
Definition blank_url : SupabaseServer.environment := fun name =>
  if String.eqb name "NEXT_PUBLIC_SUPABASE_URL" then Some [32; 32; 9]%N
  else if String.eqb name "NEXT_PUBLIC_SUPABASE_ANON_KEY" then Some [107]%N
  else None.

(** An environment with the URL set and no key. *)
Definition no_key : SupabaseServer.environment := fun name =>
  if String.eqb name "NEXT_PUBLIC_SUPABASE_URL" then Some [104; 58]%N
  else None.

(** An environment with both variables set; the key has a trailing
    space. *)
Definition configured : SupabaseServer.environment := fun name =>
  if String.eqb name "NEXT_PUBLIC_SUPABASE_URL" then Some [104; 58]%N
  else if String.eqb name "NEXT_PUBLIC_SUPABASE_ANON_KEY" then Some [107; 32]%N
  else None.

(** A stand-in for [createServerClient]. *)
Definition client (url anonKey : SupabaseServer.jsstring) (cookieStore : unit) :=
  (url, anonKey).

(** A provider state with an administrator signed in. *)
Definition admin_state : AuthState :=
  {| user := Some alice; session := Some alice_session;
     participant := Some alice_row; isLoading := false;
     isActualAdmin := true; viewAsUser := false;
     userStatus := Some approved |}.

End Sample.


(** ** Further properties of asynchronous functions *)

Definition is_setIsLoading (a : action) : bool :=
  match a with setIsLoading _ => true | _ => false end.

(** [I] holds whenever the function hands control back: at each [await],
    from which it resumes in whatever state satisfying [I] the provider
    is in by then, and at its end. *)
Fixpoint keeps (I : AuthState -> Prop) {R : Type} (p : prog R)
    (st : AuthState) : Prop :=
  match p with
  | Ret _ | Throw _ => I st
  | Do a k => keeps I k (publish a st)
  | Await q k => I st /\ forall o st', I st' -> keeps I (k o) st'
  end.

(** A user is published exactly when a session is. *)
Definition user_with_session (st : AuthState) : Prop :=
  user st = None <-> session st = None.

Definition tasks_keep (I : AuthState -> Prop) (l : list Suspended) : Prop :=
  forall t, In t l -> forall o st, I st -> keeps I (resume t o) st.

Definition tasks_total (l : list Suspended) : Prop :=
  forall t, In t l -> forall o, total (resume t o).

(** The public operations whose promise can reject: they await the auth
    SDK with no handler. *)
Definition may_reject (ev : event) : bool :=
  match ev with
  | call_signOut | call_signInWithEmail _ _ | call_signInWithMagicLink _ _ => true
  | _ => false
  end.

Definition is_Settle (ev : event) : bool :=
  match ev with Settle _ _ => true | _ => false end.

Definition is_setViewAsUser (ev : event) : bool :=
  match ev with call_setViewAsUser _ => true | _ => false end.

(** The session and the user the bootstrap takes as validated: a stored
    session, and a user returned for it with no error. *)
Definition validated (b : backend) : option (Session * User) :=
  match b AuthGetSession with
  | Resolved (Some initialSession) =>
      match b AuthGetUser with
      | Resolved r =>
          match gu_error r, gu_user r with
          | None, Some validatedUser => Some (initialSession, validatedUser)
          | _, _ => None
          end
      | Rejected _ => None
      end
  | _ => None
  end.

(** The user a signed-in event carries. *)
Definition event_user (newSession : option Session) : option User :=
  match newSession with
  | Some s => s_user s
  | None => None
  end.

(** ** The dashboard page ([app/page.tsx]) *)

Module DashboardPage.

(** What a [catch] clause receives: an [Error] with its message, or some
    other value. *)
Inductive thrown :=
| ThrownError (message : string)
| ThrownValue.

Inductive settled (A : Type) :=
| Fulfilled (a : A)
| Refused (e : thrown).
Arguments Fulfilled {A} a.
Arguments Refused {A} e.

(** [e instanceof Error ? e.message : fallback] *)
Definition message_or (e : thrown) (fallback : string) : string :=
  match e with
  | ThrownError message => message
  | ThrownValue => fallback
  end.

(** The rejection of [createServerSupabaseClient] as the page catches
    it. *)
Definition caught {A : Type} (o : outcome A) : settled A :=
  match o with
  | Resolved a => Fulfilled a
  | Rejected (Error message) => Refused (ThrownError message)
  end.

Inductive query :=
| count_participants     (* from('participants').select('id', { count: 'exact', head: true }) *)
| count_submissions      (* from('submissions').select('id', { count: 'exact', head: true }) *)
| recent_activity        (* from('activity_log').select(...).order(...).limit(10) *)
| count_assignments.     (* from('assignments').select('id', { count: 'exact', head: true }) *)

(** How the four queries settle: [count] of the count queries, [data] of
    the activity query. *)
Record Database (Activity : Type) := {
  participantsResult : settled (option N);
  submissionsResult : settled (option N);
  activityResult : settled (option (list Activity));
  assignmentsResult : settled (option N)
}.
Arguments participantsResult {Activity} d.
Arguments submissionsResult {Activity} d.
Arguments activityResult {Activity} d.
Arguments assignmentsResult {Activity} d.

(** What the page renders: one of the two amber cards with its message,
    or the statistics and the activity feed. *)
Inductive view (Activity : Type) :=
| ConfigurationNeeded (message : string)
| DatabaseNotReady (fetchError : string)
| Statistics (participants submissions completionRate assignments : N)
             (activities : list Activity).
Arguments ConfigurationNeeded {Activity} message.
Arguments DatabaseNotReady {Activity} fetchError.
Arguments Statistics {Activity} participants submissions completionRate
  assignments activities.

Definition refusal {A : Type} (r : settled A) : option thrown :=
  match r with
  | Fulfilled _ => None
  | Refused e => Some e
  end.

(** The rejection, if any, of one of the three promises handed to
    [Promise.all]. *)
Definition refusal_of {Activity : Type} (d : Database Activity) (q : query)
  : option thrown :=
  match q with
  | count_participants => refusal (participantsResult d)
  | count_submissions => refusal (submissionsResult d)
  | recent_activity => refusal (activityResult d)
  | count_assignments => None
  end.

Fixpoint first_refusal {Activity : Type} (d : Database Activity)
    (order : list query) : option thrown :=
  match order with
  | [] => None
  | q :: order =>
      match refusal_of d q with
      | Some e => Some e
      | None => first_refusal d order
      end
  end.

(** [Promise.all] of the three queries: it rejects with the rejection
    that comes first in the order [order] in which the promises settle,
    and fulfils with the three results when none rejects. *)
Definition promise_all {Activity : Type} (d : Database Activity)
    (order : list query)
  : settled (option N * option N * option (list Activity)) :=
  match first_refusal d
          (order ++ [count_participants; count_submissions; recent_activity])
  with
  | Some e => Refused e
  | None =>
      match participantsResult d, submissionsResult d, activityResult d with
      | Fulfilled p, Fulfilled s, Fulfilled a => Fulfilled (p, s, a)
      | Refused e, _, _ | _, Refused e, _ | _, _, Refused e => Refused e
      end
  end.

(** [x ?? d] *)
Definition or_default {A : Type} (x : option A) (d : A) : A :=
  match x with
  | Some a => a
  | None => d
  end.

(** The local variables of [Dashboard] after the second [try]. *)
Record Fetched (Activity : Type) := {
  participantCount : N;
  submissionCount : N;
  activities : list Activity;
  assignmentCount : N;
  fetchError : option string
}.
Arguments participantCount {Activity} f.
Arguments submissionCount {Activity} f.
Arguments activities {Activity} f.
Arguments assignmentCount {Activity} f.
Arguments fetchError {Activity} f.

(** The second [try] block: the queries sent, and the variables it
    leaves. *)
Definition fetch {Activity : Type} (d : Database Activity) (order : list query)
  : list query * Fetched Activity :=
  match promise_all d order with
  | Refused e =>
      ([count_participants; count_submissions; recent_activity],
       {| participantCount := 0%N; submissionCount := 0%N; activities := [];
          assignmentCount := 0%N;
          fetchError := Some (message_or e "Failed to load data from database.") |})
  | Fulfilled (p, s, a) =>
      ([count_participants; count_submissions; recent_activity;
        count_assignments],
       match assignmentsResult d with
       | Fulfilled c =>
           {| participantCount := or_default p 0%N;
              submissionCount := or_default s 0%N;
              activities := or_default a [];
              assignmentCount := or_default c 0%N;
              fetchError := None |}
       | Refused e =>
           {| participantCount := or_default p 0%N;
              submissionCount := or_default s 0%N;
              activities := or_default a [];
              assignmentCount := 0%N;
              fetchError :=
                Some (message_or e "Failed to load data from database.") |}
       end)
  end.

(** [Dashboard].  [percent s t] stands for
    [Math.round((s / t) * 100)], a computation on doubles that is taken
    as given; the counts are natural numbers. *)
Definition Dashboard {Client Activity : Type} (percent : N -> N -> N)
    (client : settled Client) (db : Client -> Database Activity)
    (order : list query) : list query * view Activity :=
  match client with
  | Refused e =>
      ([], ConfigurationNeeded (message_or e "Supabase is not configured."))
  | Fulfilled supabase =>
      let (sent, f) := fetch (db supabase) order in
      let totalPossible := (participantCount f * assignmentCount f)%N in
      let completionRate :=
        if (0 <? totalPossible)%N then percent (submissionCount f) totalPossible
        else 0%N in
      (sent,
       match truthy (fetchError f) with
       | Some fetchError => DatabaseNotReady fetchError
       | None =>
           Statistics (participantCount f) (submissionCount f) completionRate
             (assignmentCount f) (activities f)
       end)
  end.

End DashboardPage.

(** The three queries handed to [Promise.all], and all four. *)
Definition three_queries : list DashboardPage.query :=
  [DashboardPage.count_participants; DashboardPage.count_submissions;
   DashboardPage.recent_activity].

Definition four_queries : list DashboardPage.query :=
  three_queries ++ [DashboardPage.count_assignments].

(** The safety timer is not pending: never set, cleared or fired. *)
Definition timer_settled (P : Provider) : Prop :=
  forall t, safetyTimeout P = Some t -> status t <> timer_pending.

(** ** More sample data *)

Module Scenario.

(** An administrator's participant row, found by email. *)
Definition admin_row : Participant :=
  {| p_id := "p9"; p_email := Some "a@x.com"; p_github_username := None;
     p_auth_user_id := Some "u1"; p_is_admin := Some true |}.

Definition administrator : backend := fun q =>
  match q return outcome (response q) with
  | SelectParticipant col_email "a@x.com" => Resolved (Some admin_row)
  | q => Sample.unknown q
  end.

(** The identity provider answers with a user and an error at once. *)
Definition user_and_error : backend := fun q =>
  match q return outcome (response q) with
  | AuthGetUser =>
      Resolved {| gu_user := Some Sample.alice;
                  gu_error := Some {| ae_message := "expired" |} |}
  | q => Sample.registered q
  end.

(** A stored session that carries no user, which the identity provider
    validates as Alice's; no participant row, an active grant. *)
Definition bare_session : Session :=
  {| s_access_token := "t0"; s_user := None |}.

Definition revalidated : backend := fun q =>
  match q return outcome (response q) with
  | AuthGetSession => Resolved (Some bare_session)
  | q => Sample.granted q
  end.

(** The session request itself is rejected. *)
Definition no_network : backend := fun q =>
  match q return outcome (response q) with
  | AuthGetSession => Rejected (Error "Failed to fetch")
  | q => Sample.registered q
  end.

(** A database where the submissions query is rejected with a message,
    the activity query with a value that is no [Error]. *)
Definition broken : DashboardPage.Database unit :=
  {| DashboardPage.participantsResult := DashboardPage.Fulfilled (Some 8%N);
     DashboardPage.submissionsResult :=
       DashboardPage.Refused (DashboardPage.ThrownError "relation does not exist");
     DashboardPage.activityResult :=
       DashboardPage.Refused DashboardPage.ThrownValue;
     DashboardPage.assignmentsResult := DashboardPage.Fulfilled (Some 10%N) |}.

(** A database where the assignments query is rejected by an [Error]
    with an empty message. *)
Definition silent : DashboardPage.Database unit :=
  {| DashboardPage.participantsResult := DashboardPage.Fulfilled (Some 8%N);
     DashboardPage.submissionsResult := DashboardPage.Fulfilled (Some 5%N);
     DashboardPage.activityResult := DashboardPage.Fulfilled None;
     DashboardPage.assignmentsResult :=
       DashboardPage.Refused (DashboardPage.ThrownError "") |}.

(** A database with no participants yet. *)
Definition fresh : DashboardPage.Database unit :=
  {| DashboardPage.participantsResult := DashboardPage.Fulfilled None;
     DashboardPage.submissionsResult := DashboardPage.Fulfilled (Some 0%N);
     DashboardPage.activityResult := DashboardPage.Fulfilled (Some []);
     DashboardPage.assignmentsResult := DashboardPage.Fulfilled (Some 10%N) |}.

End Scenario.


(** * Theorems *)

Ltac split3 := split; [ | split ].
Ltac split5 := split; [ | split; [ | split; [ | split ] ] ].

(** ** Running composed functions *)

Lemma run_bind {A B : Type} (b : backend) (p : prog A) (f : A -> prog B) :
  run b (bind p f) =
  match run b p with
  | (t, Resolved r) => let (t', o) := run b (f r) in (t ++ t', o)
  | (t, Rejected e) => (t, Rejected e)
  end.
Proof.
  induction p as [r | e | a k IH | q k IH]; simpl.
  - destruct (run b (f r)); reflexivity.
  - reflexivity.
  - rewrite IH. destruct (run b k) as [t [r | e]]; [ | reflexivity ].
    destruct (run b (f r)); reflexivity.
  - rewrite IH. destruct (run b (k (b q))) as [t [r | e]]; [ | reflexivity ].
    destruct (run b (f r)); reflexivity.
Qed.

Lemma run_try_catch {R : Type} (b : backend) (p : prog R) (h : exn -> prog R) :
  run b (try_catch p h) =
  match run b p with
  | (t, Resolved r) => (t, Resolved r)
  | (t, Rejected e) => let (t', o) := run b (h e) in (t ++ t', o)
  end.
Proof.
  induction p as [r | e | a k IH | q k IH]; simpl.
  - reflexivity.
  - destruct (run b (h e)); reflexivity.
  - rewrite IH. destruct (run b k) as [t [r | e]]; [ reflexivity | ].
    destruct (run b (h e)); reflexivity.
  - rewrite IH. destruct (run b (k (b q))) as [t [r | e]]; [ reflexivity | ].
    destruct (run b (h e)); reflexivity.
Qed.

Lemma run_try_finally {R : Type} (b : backend) (p : prog R) (f : prog unit) :
  run b (try_finally p f) =
  match run b p, run b f with
  | (t, o), (tf, Resolved _) => (t ++ tf, o)
  | (t, _), (tf, Rejected e) => (t ++ tf, Rejected e)
  end.
Proof.
  induction p as [r | e | a k IH | q k IH]; simpl.
  - rewrite run_bind. destruct (run b f) as [tf [u | e]]; simpl; try reflexivity.
    rewrite app_nil_r. reflexivity.
  - rewrite run_bind. destruct (run b f) as [tf [u | e']]; simpl; try reflexivity.
    rewrite app_nil_r. reflexivity.
  - rewrite IH. destruct (run b k) as [t o], (run b f) as [tf [u | e]]; reflexivity.
  - rewrite IH. destruct (run b (k (b q))) as [t o], (run b f) as [tf [u | e]];
      reflexivity.
Qed.

Lemma asked_app (t1 t2 : list entry) : asked (t1 ++ t2) = asked t1 ++ asked t2.
Proof.
  induction t1 as [ | [a | q] t1 IH]; simpl; rewrite ?IH; reflexivity.
Qed.

Lemma done_app (t1 t2 : list entry) : done (t1 ++ t2) = done t1 ++ done t2.
Proof.
  induction t1 as [ | [a | q] t1 IH]; simpl; rewrite ?IH; reflexivity.
Qed.

Lemma publishAll_cons (a : action) (l : list action) (st : AuthState) :
  publishAll (a :: l) st = publishAll l (publish a st).
Proof. reflexivity. Qed.

Lemma publishAll_app (l1 l2 : list action) (st : AuthState) :
  publishAll (l1 ++ l2) st = publishAll l2 (publishAll l1 st).
Proof. apply fold_left_app. Qed.

(** ** Participant lookup *)

(** The walk over the strategies is what [fetchParticipant] does: same
    result, same requests, and nothing published but the logged error. *)
Lemma fetchParticipant_first_match (b : backend) (u : User) :
  settles b (fetchParticipant u) = Resolved (snd (first_match b (strategies u)))
  /\ asked (trace b (fetchParticipant u))
     = map query (fst (first_match b (strategies u))).
Proof.
  unfold settles, trace, fetchParticipant, strategies, lookup.
  destruct (truthy (u_email u)) as [email | ];
    destruct (truthy (u_user_name u)) as [handle | ]; simpl;
    unfold lookup, query; simpl.
  all: repeat match goal with
         | |- context [match ?o with Resolved _ => _ | Rejected _ => _ end] =>
             destruct o as [[p | ] | e]; simpl
         end.
  all: split; reflexivity.
Qed.

Lemma first_match_spec (b : backend) (l : list strategy) :
  exists n : nat,
    fst (first_match b l) = firstn n l /\
    (forall p, snd (first_match b l) = Some p ->
       exists before s, firstn n l = before ++ [s]
         /\ lookup b s = Resolved (Some p)
         /\ forall s', In s' before -> lookup b s' = Resolved None) /\
    (snd (first_match b l) = None ->
       forall s p, In s (firstn n l) -> lookup b s <> Resolved (Some p)) /\
    ((forall s, In s l -> exists d, lookup b s = Resolved d) ->
       snd (first_match b l) = None ->
       firstn n l = l /\ forall s, In s l -> lookup b s = Resolved None) /\
    ((forall s, In s l -> lookup b s = Resolved None) ->
       snd (first_match b l) = None).
Proof.
  induction l as [ | s l (n & Htried & Hsome & Hnone & Hall & Hno)].
  - exists 0. simpl. split5; try easy.
  - simpl. destruct (lookup b s) as [[p | ] | e] eqn:Hs.
    + exists 1. simpl. split5; try discriminate.
      * reflexivity.
      * intros p' [= <-]. exists [], s. now split3.
      * intros H. specialize (H s (or_introl eq_refl)). congruence.
    + exists (S n). destruct (first_match b l) as [tried r]. simpl in *.
      split5.
      * now rewrite Htried.
      * intros p Hp. destruct (Hsome p Hp) as (before & s' & E & Hm & Hb).
        exists (s :: before), s'. rewrite E. split3; trivial.
        intros s'' [<- | Hin]; auto.
      * intros Hr s' p [<- | Hin]; [ congruence | now apply Hnone ].
      * intros Hd Hr. split.
        -- f_equal. apply Hall; auto.
        -- intros s' [<- | Hin]; trivial. apply Hall; auto.
      * intros H. apply Hno. auto.
    + exists 1. simpl. split5; try discriminate.
      * reflexivity.
      * intros _ s' p [<- | []]. congruence.
      * intros H. destruct (H s (or_introl eq_refl)). congruence.
      * reflexivity.
Qed.

(** C2.  Participant lookup tries the strategies in the fixed order email
    (if the identity has one), handle (if the metadata has one), linked
    identifier: the requests it issues are an initial segment of that
    list; a participant it returns is the row of the last strategy it
    tried, every strategy before having found nothing, so the first match
    wins and the strategies after it are skipped; and, the lookups
    resolving, it returns null exactly when no strategy matches, having
    tried them all. *)
Theorem fetchParticipant_lookup_order (b : backend) (u : User) :
  exists (n : nat) (found : option Participant),
    settles b (fetchParticipant u) = Resolved found /\
    asked (trace b (fetchParticipant u)) = map query (firstn n (strategies u)) /\
    (forall p, found = Some p ->
       exists before s, firstn n (strategies u) = before ++ [s]
         /\ lookup b s = Resolved (Some p)
         /\ forall s', In s' before -> lookup b s' = Resolved None) /\
    (found = None ->
       forall s p, In s (firstn n (strategies u)) ->
                   lookup b s <> Resolved (Some p)) /\
    ((forall s, In s (strategies u) -> exists d, lookup b s = Resolved d) ->
       (found = None <->
        forall s, In s (strategies u) -> lookup b s = Resolved None)
       /\ (found = None -> firstn n (strategies u) = strategies u)).
Proof.
  destruct (fetchParticipant_first_match b u) as [Hres Hasked].
  destruct (first_match_spec b (strategies u))
    as (n & Htried & Hsome & Hnone & Hall & Hno).
  exists n, (snd (first_match b (strategies u))).
  rewrite <- Htried in *. split5; trivial.
  intros Hd. split; [ split | ].
  - intros Hr. now apply Hall.
  - exact Hno.
  - intros Hr. now apply Hall.
Qed.

(** The strategies of an identity with an email and a handle, of one
    with neither, and the order in which a lookup goes through them. *)
Example strategies_alice :
  strategies Sample.alice
  = [(col_email, "a@x.com"); (col_github_username, "alice");
     (col_auth_user_id, "u1")].
Proof. reflexivity. Qed.

Example strategies_anonymous :
  strategies {| u_id := "u2"; u_email := None; u_user_name := Some "" |}
  = [(col_auth_user_id, "u2")].
Proof. reflexivity. Qed.

Example fetchParticipant_unknown :
  run Sample.unknown (fetchParticipant Sample.alice)
  = ([Asked (SelectParticipant col_email "a@x.com");
      Asked (SelectParticipant col_github_username "alice");
      Asked (SelectParticipant col_auth_user_id "u1")], Resolved None).
Proof. reflexivity. Qed.

Example fetchParticipant_registered :
  run Sample.registered (fetchParticipant Sample.alice)
  = ([Asked (SelectParticipant col_email "a@x.com")],
     Resolved (Some Sample.alice_row)).
Proof. reflexivity. Qed.

(** ** Identity resolution *)

Lemma run_fetchParticipant (b : backend) (u : User) :
  run b (fetchParticipant u)
  = (trace b (fetchParticipant u), Resolved (found b u)).
Proof.
  destruct (fetchParticipant_first_match b u) as [H _].
  unfold settles, trace, found in *.
  destruct (run b (fetchParticipant u)). simpl in *. congruence.
Qed.

(** The lookup itself publishes nothing: at most it logs the error it
    caught. *)
Lemma fetchParticipant_done (b : backend) (u : User) :
  done (trace b (fetchParticipant u)) = []
  \/ done (trace b (fetchParticipant u))
     = [console_error "fetchParticipant error:"].
Proof.
  unfold trace, fetchParticipant.
  destruct (truthy (u_email u)) as [email | ];
    destruct (truthy (u_user_name u)) as [handle | ]; simpl.
  all: repeat match goal with
         | |- context [match ?o with Resolved _ => _ | Rejected _ => _ end] =>
             destruct o as [[p | ] | e]; simpl
         end.
  all: auto.
Qed.

Lemma fetchParticipant_publishes_nothing (b : backend) (u : User) (st : AuthState) :
  publishAll (done (trace b (fetchParticipant u))) st = st.
Proof.
  destruct (fetchParticipant_done b u) as [-> | ->]; reflexivity.
Qed.

Lemma fetchParticipant_no_backfill (b : backend) (u : User) :
  filter is_updateAuthUserId (done (trace b (fetchParticipant u))) = [].
Proof.
  destruct (fetchParticipant_done b u) as [-> | ->]; reflexivity.
Qed.

Lemma run_checkAdminUser (b : backend) (userId : string) :
  run b (checkAdminUser userId)
  = ([Asked (SelectAdminUser userId)], Resolved (activeGrant b userId)).
Proof.
  unfold checkAdminUser, activeGrant. simpl.
  destruct (b (SelectAdminUser userId)) as [[a | ] | e]; reflexivity.
Qed.

Opaque fetchParticipant checkAdminUser.

(** The bootstrap, for a session that validates. *)
Lemma run_initAuth (b : backend) (s : Session) (r : GetUserResult) (u : User) :
  b AuthGetSession = Resolved (Some s) ->
  b AuthGetUser = Resolved r ->
  gu_error r = None -> gu_user r = Some u ->
  run b initAuth
  = (Asked AuthGetSession :: Asked AuthGetUser
       :: Did (setSession (Some s)) :: Did (setUser (Some u))
       :: trace b (fetchParticipant u)
       ++ map Did (publishLookup (found b u) ++ backfill (found b u) u)
       ++ Asked (SelectAdminUser (u_id u))
       :: map Did (publishGrant (activeGrant b (u_id u)))
       ++ [Did (setIsLoading false); Did clearTimeout],
     Resolved tt).
Proof.
  intros Hs Hr He Hu. unfold initAuth.
  rewrite run_try_finally, run_try_catch. simpl.
  rewrite Hs. simpl. rewrite Hr. simpl. rewrite He, Hu. simpl.
  rewrite run_bind, run_fetchParticipant.
  destruct (found b u) as [p | ]; simpl.
  - destruct (truthy (p_auth_user_id p)); simpl;
      rewrite run_bind, run_checkAdminUser;
      destruct (activeGrant b (u_id u)); simpl;
      rewrite <- ?app_assoc; reflexivity.
  - rewrite run_bind, run_checkAdminUser.
    destruct (activeGrant b (u_id u)); simpl;
      rewrite <- ?app_assoc; reflexivity.
Qed.

(** The listener, for a signed-in event that carries a user. *)
Lemma run_signed_in (b : backend) (s : Session) (u : User) :
  s_user s = Some u ->
  run b (onAuthStateChange SIGNED_IN (Some s))
  = (Did (setSession (Some s)) :: Did (setUser (Some u))
       :: trace b (fetchParticipant u)
       ++ map Did (publishLookup (found b u))
       ++ Asked (SelectAdminUser (u_id u))
       :: map Did (publishGrant (activeGrant b (u_id u))),
     Resolved tt).
Proof.
  intros Hu. unfold onAuthStateChange. rewrite Hu. simpl.
  rewrite run_try_catch, run_bind, run_fetchParticipant.
  destruct (found b u) as [p | ]; simpl;
    rewrite run_bind, run_checkAdminUser;
    destruct (activeGrant b (u_id u)); simpl;
    rewrite <- ?app_assoc; reflexivity.
Qed.

Transparent fetchParticipant checkAdminUser.

Lemma done_map_Did (l : list action) : done (map Did l) = l.
Proof. induction l as [ | a l IH]; simpl; congruence. Qed.

Lemma asked_map_Did (l : list action) : asked (map Did l) = [].
Proof. induction l as [ | a l IH]; simpl; congruence. Qed.

Lemma after_initAuth (b : backend) (s : Session) (r : GetUserResult) (u : User)
    (st : AuthState) :
  b AuthGetSession = Resolved (Some s) ->
  b AuthGetUser = Resolved r ->
  gu_error r = None -> gu_user r = Some u ->
  after b initAuth st
  = publishAll (setSession (Some s) :: setUser (Some u)
                  :: publishLookup (found b u)
                  ++ publishGrant (activeGrant b (u_id u))
                  ++ [setIsLoading false]) st.
Proof.
  intros Hs Hr He Hu. unfold after, trace.
  rewrite (run_initAuth b s r u Hs Hr He Hu). cbn [fst done].
  rewrite done_app, done_app, done_map_Did. cbn [done].
  rewrite done_app, done_map_Did. cbn [done].
  rewrite !publishAll_cons, !publishAll_app, fetchParticipant_publishes_nothing.
  destruct (found b u) as [p | ]; simpl;
    [ destruct (truthy (p_auth_user_id p)) | ];
    destruct (activeGrant b (u_id u)); reflexivity.
Qed.

Lemma after_signed_in (b : backend) (s : Session) (u : User) (st : AuthState) :
  s_user s = Some u ->
  after b (onAuthStateChange SIGNED_IN (Some s)) st
  = publishAll (setSession (Some s) :: setUser (Some u)
                  :: publishLookup (found b u)
                  ++ publishGrant (activeGrant b (u_id u))) st.
Proof.
  intros Hu. unfold after, trace. rewrite (run_signed_in b s u Hu).
  cbn [fst done].
  rewrite done_app, done_app, done_map_Did. cbn [done].
  rewrite done_map_Did.
  rewrite !publishAll_cons, !publishAll_app, fetchParticipant_publishes_nothing.
  reflexivity.
Qed.

Lemma resolution_outcome_publish (b : backend) (u : User) (st : AuthState)
    (before after : list action) :
  (forall st0, participant (publishAll before st0) = participant st0
               /\ isActualAdmin (publishAll before st0) = isActualAdmin st0) ->
  (forall st0, participant (publishAll after st0) = participant st0
               /\ isActualAdmin (publishAll after st0) = isActualAdmin st0
               /\ userStatus (publishAll after st0) = userStatus st0) ->
  resolution_outcome b u st
    (publishAll (before ++ publishLookup (found b u)
                 ++ publishGrant (activeGrant b (u_id u)) ++ after) st).
Proof.
  intros Hb Ha. unfold resolution_outcome.
  rewrite !publishAll_app.
  destruct (Ha (publishAll (publishGrant (activeGrant b (u_id u)))
                  (publishAll (publishLookup (found b u))
                     (publishAll before st)))) as (-> & -> & ->).
  destruct (Hb st) as [Hp Hadm].
  destruct (found b u) as [p | ], (activeGrant b (u_id u)); simpl;
    rewrite ?Hp, ?Hadm, ?orb_true_r, ?orb_false_r; split; intros; try easy.
Qed.

(** C3.  After identity resolution.  At bootstrap, for any session whose
    user the validation call returns: if no lookup strategy matched, the
    participant path publishes the status 'no_profile' and touches
    neither the participant nor the admin flag, which is the flag before
    resolution or-ed with the grant; and whenever an active Admin Grant is
    found, isActualAdmin is true and the status 'approved', participant or
    not.  From the initial state, no match and no grant end in no
    participant, 'no_profile' and no admin right; no match and a grant in
    no participant, 'approved' and isActualAdmin.  On a signed-in event
    carrying a session with that user, the same holds of the listener. *)
Theorem identity_resolution_outcome (b : backend) (u : User) (st : AuthState) :
  (forall s : Session,
      b AuthGetSession = Resolved (Some s) ->
      b AuthGetUser = Resolved {| gu_user := Some u; gu_error := None |} ->
      resolution_outcome b u st (after b initAuth st)
      /\ (found b u = None ->
            In (setUserStatus (Some no_profile)) (done (trace b initAuth)))
      /\ (found b u = None -> activeGrant b (u_id u) = false ->
            let st' := after b initAuth initialState in
            participant st' = None /\ userStatus st' = Some no_profile
            /\ isActualAdmin st' = false /\ isAdmin st' = false)
      /\ (found b u = None -> activeGrant b (u_id u) = true ->
            let st' := after b initAuth initialState in
            participant st' = None /\ userStatus st' = Some approved
            /\ isActualAdmin st' = true))
  /\ (forall s : Session,
        s_user s = Some u ->
        resolution_outcome b u st
          (after b (onAuthStateChange SIGNED_IN (Some s)) st)
        /\ (found b u = None ->
              In (setUserStatus (Some no_profile))
                 (done (trace b (onAuthStateChange SIGNED_IN (Some s)))))
        /\ (found b u = None -> activeGrant b (u_id u) = false ->
              let st' := after b (onAuthStateChange SIGNED_IN (Some s))
                           initialState in
              participant st' = None /\ userStatus st' = Some no_profile
              /\ isActualAdmin st' = false /\ isAdmin st' = false)
        /\ (found b u = None -> activeGrant b (u_id u) = true ->
              let st' := after b (onAuthStateChange SIGNED_IN (Some s))
                           initialState in
              participant st' = None /\ userStatus st' = Some approved
              /\ isActualAdmin st' = true)).
Proof.
  split; intros s.
  - intros Hs Hr.
    pose proof (fun st => after_initAuth b s _ u st Hs Hr eq_refl eq_refl)
      as Hinit.
    split; [ | split; [ | split ] ].
    + rewrite Hinit.
      apply (resolution_outcome_publish b u st
               [setSession (Some s); setUser (Some u)] [setIsLoading false]);
        intros st0; simpl; auto.
    + intros Hf. unfold trace.
      rewrite (run_initAuth b s _ u Hs Hr eq_refl eq_refl), Hf.
      cbn [fst done]. rewrite !done_app.
      cbn [done map publishLookup backfill app].
      right; right; apply in_or_app; right; now left.
    + intros Hf Hg. rewrite Hinit, Hf, Hg. simpl. auto.
    + intros Hf Hg. rewrite Hinit, Hf, Hg. simpl. auto.
  - intros Hu.
    pose proof (fun st => after_signed_in b s u st Hu) as Hin.
    split; [ | split; [ | split ] ].
    + rewrite Hin.
      replace (publishGrant (activeGrant b (u_id u)))
        with (publishGrant (activeGrant b (u_id u)) ++ []) by apply app_nil_r.
      apply (resolution_outcome_publish b u st
               [setSession (Some s); setUser (Some u)] []);
        intros st0; simpl; auto.
    + intros Hf. unfold trace.
      rewrite (run_signed_in b s u Hu), Hf.
      cbn [fst done]. rewrite !done_app.
      cbn [done map publishLookup app].
      right; right; apply in_or_app; right; now left.
    + intros Hf Hg. rewrite Hin, Hf, Hg. simpl. auto.
    + intros Hf Hg. rewrite Hin, Hf, Hg. simpl. auto.
Qed.

Lemma identity_resolution_outcome_witness :
  resolution_outcome Sample.granted Sample.alice initialState
    (after Sample.granted initAuth initialState)
  /\ userStatus (after Sample.granted initAuth initialState) = Some approved
  /\ participant (after Sample.granted initAuth initialState) = None
  /\ resolution_outcome Sample.granted Sample.alice initialState
       (after Sample.granted
          (onAuthStateChange SIGNED_IN (Some Sample.alice_session))
          initialState)
  /\ resolution_outcome Scenario.revalidated Sample.alice initialState
       (after Scenario.revalidated initAuth initialState).
Proof.
  pose proof (identity_resolution_outcome Sample.granted Sample.alice
                initialState) as (Hboot & Hlisten).
  destruct (Hboot Sample.alice_session eq_refl eq_refl)
    as (H1 & _ & _ & H4).
  destruct (Hlisten Sample.alice_session eq_refl) as (H5 & _).
  destruct (identity_resolution_outcome Scenario.revalidated Sample.alice
              initialState) as (Hbare & _).
  destruct (Hbare Scenario.bare_session eq_refl eq_refl) as (H6 & _).
  split; [ exact H1 | ].
  destruct (H4 eq_refl eq_refl) as (Hp & Hst & _).
  split; [ assumption | split; [ assumption | split; assumption ] ].
Defined.

(** The three scenarios of the specification. *)
Example scenario_no_profile :
  let st := after Sample.unknown initAuth initialState in
  participant st = None /\ userStatus st = Some no_profile /\ isAdmin st = false.
Proof. repeat split. Qed.

Example scenario_participant :
  let st := after Sample.registered initAuth initialState in
  participant st = Some Sample.alice_row /\ userStatus st = Some approved
  /\ isActualAdmin st = false.
Proof. repeat split. Qed.

Example scenario_grant_only :
  let st := after Sample.granted initAuth initialState in
  participant st = None /\ userStatus st = Some approved
  /\ isActualAdmin st = true.
Proof. repeat split. Qed.

(** A signed-in event for an identity with no participant and no grant,
    arriving while an administrator is still signed in, leaves the
    participant and the admin flag of the previous identity in place. *)
Example signed_in_keeps_previous_admin :
  let st := after Sample.unknown
              (onAuthStateChange SIGNED_IN (Some Sample.alice_session))
              Sample.admin_state in
  userStatus st = Some no_profile /\ isActualAdmin st = true
  /\ participant st = Some Sample.alice_row.
Proof. repeat split. Qed.

(** ** The link backfill *)

Lemma filter_publishLookup (f : option Participant) :
  filter is_updateAuthUserId (publishLookup f) = [].
Proof. destruct f; reflexivity. Qed.

Lemma filter_publishGrant (g : bool) :
  filter is_updateAuthUserId (publishGrant g) = [].
Proof. destruct g; reflexivity. Qed.

Lemma filter_backfill (f : option Participant) (u : User) :
  filter is_updateAuthUserId (backfill f u) = backfill f u.
Proof.
  destruct f as [p | ]; simpl; [ | reflexivity ].
  destruct (truthy (p_auth_user_id p)); reflexivity.
Qed.

(** At bootstrap, resolution issues the backfill exactly once when the
    participant it found has no stored link, and not at all otherwise.
    The update is an action: the bootstrap neither awaits it nor reads
    how it settles. *)
Lemma bootstrap_backfills (b : backend) (s : Session) (r : GetUserResult)
    (u : User) :
  b AuthGetSession = Resolved (Some s) ->
  b AuthGetUser = Resolved r ->
  gu_error r = None -> gu_user r = Some u ->
  filter is_updateAuthUserId (done (trace b initAuth)) = backfill (found b u) u
  /\ backfills (trace b initAuth)
     = match found b u with
       | Some p => match truthy (p_auth_user_id p) with
                   | None => 1
                   | Some _ => 0
                   end
       | None => 0
       end.
Proof.
  intros Hs Hr He Hu.
  assert (filter is_updateAuthUserId (done (trace b initAuth))
          = backfill (found b u) u) as H.
  { unfold trace. rewrite (run_initAuth b s r u Hs Hr He Hu). cbn [fst done].
    rewrite done_app, done_app, done_map_Did. cbn [done].
    rewrite done_app, done_map_Did. cbn [done filter is_updateAuthUserId].
    rewrite !filter_app, fetchParticipant_no_backfill, filter_publishLookup,
      filter_publishGrant, filter_backfill.
    cbn [filter is_updateAuthUserId app]. now rewrite app_nil_r. }
  split; [ exact H | ].
  unfold backfills. rewrite H.
  destruct (found b u) as [p | ]; simpl; [ | reflexivity ].
  destruct (truthy (p_auth_user_id p)); reflexivity.
Qed.

Lemma listener_backfills (b : backend) (e : AuthChangeEvent)
    (newSession : option Session) :
  backfills (trace b (onAuthStateChange e newSession)) = 0.
Proof.
  destruct e as [ | | name]; [ | reflexivity | reflexivity ].
  destruct newSession as [s | ]; [ | reflexivity ].
  destruct (s_user s) as [u | ] eqn:Hu;
    [ | unfold onAuthStateChange; rewrite Hu; reflexivity ].
  unfold backfills, trace. rewrite (run_signed_in b s u Hu). cbn [fst done].
  rewrite done_app, done_app, done_map_Did. cbn [done].
  rewrite done_map_Did. cbn [filter is_updateAuthUserId].
  rewrite !filter_app, fetchParticipant_no_backfill, filter_publishLookup,
    filter_publishGrant.
  reflexivity.
Qed.

(** C4.  The link backfill on a resolution run.  Alice's participant row
    is found by email and has no stored link: the bootstrap issues the
    backfill once, whereas the listener, resolving the same identity on a
    signed-in event, issues none.  No event and no backend make the
    listener issue one. *)
Theorem signed_in_issues_no_backfill :
  found Sample.registered Sample.alice = Some Sample.alice_row
  /\ p_auth_user_id Sample.alice_row = None
  /\ filter is_updateAuthUserId (done (trace Sample.registered initAuth))
     = [updateAuthUserId "p1" "u1"]
  /\ backfills (trace Sample.registered
                  (onAuthStateChange SIGNED_IN (Some Sample.alice_session))) = 0
  /\ forall b e newSession,
       backfills (trace b (onAuthStateChange e newSession)) = 0.
Proof.
  split5; try reflexivity. apply listener_backfills.
Qed.

(** [refreshParticipant] does not issue the backfill either. *)
Lemma refreshParticipant_backfills (b : backend) (u : option User) :
  backfills (trace b (refreshParticipant u)) = 0.
Proof.
  destruct u as [u | ]; [ | reflexivity ].
  unfold backfills, trace, refreshParticipant.
  rewrite run_bind, run_fetchParticipant.
  destruct (found b u) as [p | ]; simpl; rewrite ?app_nil_r, ?done_app, ?filter_app;
    fold (trace b (fetchParticipant u));
    rewrite fetchParticipant_no_backfill; reflexivity.
Qed.

(** ** Exceptions *)

Lemma total_bind {A B : Type} (p : prog A) (f : A -> prog B) :
  total p -> (forall r, total (f r)) -> total (bind p f).
Proof.
  intros Hp Hf. induction p as [r | e | a k IH | q k IH]; simpl in *; auto.
Qed.

(** Whatever the body of a [try] does, nothing gets past a handler that
    completes normally. *)
Lemma total_try_catch {R : Type} (p : prog R) (h : exn -> prog R) :
  (forall e, total (h e)) -> total (try_catch p h).
Proof.
  intros Hh. induction p as [r | e | a k IH | q k IH]; simpl; auto.
Qed.

Lemma total_try_finally {R : Type} (p : prog R) (f : prog unit) :
  total p -> total f -> total (try_finally p f).
Proof.
  intros Hp Hf. induction p as [r | e | a k IH | q k IH]; simpl in *; auto.
  - apply total_bind; simpl; auto.
  - contradiction.
Qed.

Lemma total_settles {R : Type} (b : backend) (p : prog R) :
  total p -> exists r, settles b p = Resolved r.
Proof.
  unfold settles. induction p as [r | e | a k IH | q k IH]; simpl; intros H.
  - now exists r.
  - contradiction.
  - destruct (IH H) as [r Hr]. exists r. now destruct (run b k).
  - destruct (IH (b q) (H (b q))) as [r Hr]. exists r.
    now destruct (run b (k (b q))).
Qed.

Lemma total_fetchParticipant (u : User) : total (fetchParticipant u).
Proof. apply total_try_catch. intros e. exact I. Qed.

Lemma total_checkAdminUser (userId : string) : total (checkAdminUser userId).
Proof. apply total_try_catch. intros e. exact I. Qed.

Lemma total_initAuth : total initAuth.
Proof.
  apply total_try_finally; [ | exact I ].
  apply total_try_catch. intros e. exact I.
Qed.

Lemma total_onAuthStateChange (e : AuthChangeEvent) (newSession : option Session) :
  total (onAuthStateChange e newSession).
Proof.
  destruct e as [ | | name]; simpl; trivial.
  destruct newSession as [s | ]; simpl; trivial.
  destruct (s_user s) as [u | ]; simpl; trivial.
  apply total_try_catch. intros e. exact I.
Qed.

Lemma first_match_rejected (b : backend) (l : list strategy) (s : strategy)
    (e : exn) :
  In s (fst (first_match b l)) -> lookup b s = Rejected e ->
  snd (first_match b l) = None.
Proof.
  induction l as [ | s0 l IH]; simpl; [ easy | ].
  destruct (lookup b s0) as [[p | ] | e0] eqn:H0; simpl.
  - intros [<- | []] Hs. congruence.
  - destruct (first_match b l) as [tried r]. simpl in *.
    intros [<- | Hin] Hs; [ congruence | auto ].
  - reflexivity.
Qed.

(** C5.  Nothing escapes the identity-resolution path.  However the
    requests settle, [fetchParticipant], [checkAdminUser], the bootstrap
    and the listener complete normally; against any backend, a rejected
    lookup among those [fetchParticipant] issues makes it return null, a
    rejected admin-grant query makes [checkAdminUser] return false, and
    the bootstrap and the listener run to their end. *)
Theorem resolution_never_throws :
  (forall u, total (fetchParticipant u))
  /\ (forall userId, total (checkAdminUser userId))
  /\ total initAuth
  /\ (forall e newSession, total (onAuthStateChange e newSession))
  /\ (forall b u s e,
        In (query s) (asked (trace b (fetchParticipant u))) ->
        lookup b s = Rejected e ->
        settles b (fetchParticipant u) = Resolved None)
  /\ (forall b userId e,
        b (SelectAdminUser userId) = Rejected e ->
        settles b (checkAdminUser userId) = Resolved false)
  /\ (forall b, settles b initAuth = Resolved tt)
  /\ (forall b e newSession,
        settles b (onAuthStateChange e newSession) = Resolved tt).
Proof.
  split; [ exact total_fetchParticipant | ].
  split; [ exact total_checkAdminUser | ].
  split; [ exact total_initAuth | ].
  split; [ exact total_onAuthStateChange | ].
  split; [ | split; [ | split ] ].
  - intros b u s e Hin Hs.
    destruct (fetchParticipant_first_match b u) as [Hres Hasked].
    rewrite Hres. f_equal. apply (first_match_rejected b _ s e); trivial.
    rewrite Hasked in Hin. apply in_map_iff in Hin.
    destruct Hin as ([c v] & Hq & Hin). destruct s as [c' v'].
    unfold query in Hq. simpl in Hq. now injection Hq as -> ->.
  - intros b userId e H. unfold settles.
    rewrite run_checkAdminUser. unfold activeGrant.
    change (b (SelectAdminUser userId)) with (b (SelectAdminUser userId)) in H.
    simpl. now rewrite H.
  - intros b. destruct (total_settles b initAuth total_initAuth) as [[] H].
    exact H.
  - intros b e s.
    destruct (total_settles b _ (total_onAuthStateChange e s)) as [[] H].
    exact H.
Qed.

(** With every request rejected, the bootstrap still ends in a published
    state. *)
Example initAuth_unreachable :
  run Sample.unreachable initAuth
  = ([Asked AuthGetSession; Did (console_error "Auth initialization error:");
      Did (setIsLoading false); Did clearTimeout], Resolved tt).
Proof. reflexivity. Qed.

Example signed_in_unreachable :
  run Sample.unreachable (onAuthStateChange SIGNED_IN (Some Sample.alice_session))
  = ([Did (setSession (Some Sample.alice_session)); Did (setUser (Some Sample.alice));
      Asked (SelectParticipant col_email "a@x.com");
      Did (console_error "fetchParticipant error:");
      Did (setUserStatus (Some no_profile));
      Asked (SelectAdminUser "u1")], Resolved tt).
Proof. reflexivity. Qed.

(** ** Signing out *)

Lemma run_signOut (b : backend) :
  run b signOut
  = match b AuthSignOut with
    | Resolved _ =>
        ([Asked AuthSignOut; Did (setUser None); Did (setSession None);
          Did (setParticipant None); Did (setIsActualAdmin false);
          Did (setUserStatus None)], Resolved tt)
    | Rejected e => ([Asked AuthSignOut], Rejected e)
    end.
Proof.
  unfold signOut. simpl. destruct (b AuthSignOut); reflexivity.
Qed.

Lemma nth_error_snoc {A : Type} (l : list A) (x : A) :
  nth_error (l ++ [x]) (List.length l) = Some x.
Proof. induction l; simpl; auto. Qed.

Lemma remove_nth_snoc {A : Type} (l : list A) (x : A) :
  remove_nth (List.length l) (l ++ [x]) = l.
Proof. induction l; simpl; congruence. Qed.

(** [signOut] has no handler of its own: should the promise of the remote
    call reject instead of resolving, the rejection goes to the caller
    and nothing is published. *)
Lemma signOut_rejected (b : backend) (e : exn) (st : AuthState) :
  b AuthSignOut = Rejected e ->
  settles b signOut = Rejected e /\ after b signOut st = st.
Proof.
  intros H. unfold settles, after, trace. rewrite run_signOut, H. now split.
Qed.

(** C6.  [signOut] by the outcome of the remote sign-out call.  When the
    promise of the call resolves, with no error (success) or with a
    failure reported in its result, [signOut] completes and leaves user,
    session and participant unset, isActualAdmin false and userStatus
    null, the rest of the state as it was; in the provider, the call and
    the settling of its request clear the published state by themselves,
    with no event delivered to the listener, subscribed or not.  When the
    promise rejects, [signOut] rejects with the same reason after its one
    request and publishes nothing: the state stays as it was, in the
    provider too, where the rejection is left unhandled.  Signing out of
    a cleared state changes nothing, whatever the outcome. *)
Theorem signOut_clears (b : backend) (st : AuthState) :
  (forall error : option AuthError,
      b AuthSignOut = Resolved error ->
      settles b signOut = Resolved tt
      /\ after b signOut st = cleared st
      /\ (let st' := after b signOut st in
          user st' = None /\ session st' = None /\ participant st' = None
          /\ isActualAdmin st' = false /\ userStatus st' = None)
      /\ forall P : Provider,
           published
             (steps P [call_signOut; Settle (List.length (suspended P)) b])
           = cleared (published P))
  /\ (forall e : exn,
        b AuthSignOut = Rejected e ->
        run b signOut = ([Asked AuthSignOut], Rejected e)
        /\ after b signOut st = st
        /\ forall P : Provider,
             let P' := steps P [call_signOut;
                                Settle (List.length (suspended P)) b] in
             published P' = published P /\ uncaught P' = e :: uncaught P)
  /\ (forall b' : backend, after b' signOut (cleared st) = cleared st).
Proof.
  split3.
  - intros error H.
    assert (after b signOut st = cleared st) as Hc.
    { unfold after, trace. rewrite run_signOut, H. reflexivity. }
    split; [ | split; [ | split ] ].
    + unfold settles. rewrite run_signOut, H. reflexivity.
    + exact Hc.
    + rewrite Hc. now simpl.
    + intros P. simpl. unfold settle. simpl.
      rewrite nth_error_snoc. simpl. rewrite H. reflexivity.
  - intros e H. split3.
    + rewrite run_signOut, H. reflexivity.
    + now apply (signOut_rejected b e).
    + intros P. simpl. unfold settle. simpl.
      rewrite nth_error_snoc. simpl. rewrite H. now split.
  - intros b'. unfold after, trace. rewrite run_signOut.
    destruct (b' AuthSignOut); reflexivity.
Qed.

Lemma signOut_clears_witness :
  after Sample.unknown signOut Sample.admin_state = cleared Sample.admin_state
  /\ after Sample.registered signOut Sample.admin_state
     = cleared Sample.admin_state
  /\ after Sample.unreachable signOut Sample.admin_state = Sample.admin_state.
Proof.
  destruct (signOut_clears Sample.unknown Sample.admin_state)
    as (Hfailed & _ & _).
  destruct (signOut_clears Sample.registered Sample.admin_state)
    as (Hdone & _ & _).
  destruct (signOut_clears Sample.unreachable Sample.admin_state)
    as (_ & Hrejected & _).
  split3.
  - exact (proj1 (proj2 (Hfailed _ eq_refl))).
  - exact (proj1 (proj2 (Hdone _ eq_refl))).
  - exact (proj1 (proj2 (Hrejected _ eq_refl))).
Defined.

(** The remote call failing by a rejected promise, with an administrator
    signed in: [signOut] rejects, and user, session, participant, the
    admin flag and the profile status are all still set. *)
Lemma signOut_rejection_keeps_state :
  Sample.unreachable AuthSignOut = Rejected (Error "Failed to fetch")
  /\ settles Sample.unreachable signOut = Rejected (Error "Failed to fetch")
  /\ user (after Sample.unreachable signOut Sample.admin_state)
     = Some Sample.alice
  /\ session (after Sample.unreachable signOut Sample.admin_state)
     = Some Sample.alice_session
  /\ participant (after Sample.unreachable signOut Sample.admin_state)
     = Some Sample.alice_row
  /\ isActualAdmin (after Sample.unreachable signOut Sample.admin_state) = true
  /\ userStatus (after Sample.unreachable signOut Sample.admin_state)
     = Some approved
  /\ ~ (forall (b : backend) (st : AuthState),
          user (after b signOut st) = None
          /\ session (after b signOut st) = None
          /\ participant (after b signOut st) = None).
Proof.
  repeat (split; [ reflexivity | ]).
  intros H.
  destruct (H Sample.unreachable Sample.admin_state) as [Hu _].
  discriminate Hu.
Qed.

(** ** The session event listener *)

(** The two events the listener handles.  On a signed-out event the
    listener is synchronous: it awaits
    nothing and clears user, session, participant, the admin flag and the
    profile status.  On a signed-in event whose session carries a user it
    first publishes the session and the user, then runs the participant
    lookup and the admin-grant check for that user and publishes what a
    bootstrap of the same identity would; whatever the backend does, it
    completes normally with the session and the user it published still
    in place. *)
Theorem listener_events (b : backend) (s : Session) (u : User) (st : AuthState) :
  s_user s = Some u ->
  (forall newSession,
     synchronous (onAuthStateChange SIGNED_OUT newSession) = true
     /\ trace b (onAuthStateChange SIGNED_OUT newSession)
        = map Did [setSession None; setUser None; setParticipant None;
                   setIsActualAdmin false; setUserStatus None]
     /\ after b (onAuthStateChange SIGNED_OUT newSession) st = cleared st)
  /\ (exists rest,
        trace b (onAuthStateChange SIGNED_IN (Some s))
        = Did (setSession (Some s)) :: Did (setUser (Some u)) :: rest
        /\ asked rest = asked (trace b (fetchParticipant u))
                        ++ [SelectAdminUser (u_id u)])
  /\ (let st' := after b (onAuthStateChange SIGNED_IN (Some s)) st in
      settles b (onAuthStateChange SIGNED_IN (Some s)) = Resolved tt
      /\ session st' = Some s /\ user st' = Some u
      /\ resolution_outcome b u st st')
  /\ (b AuthGetSession = Resolved (Some s) ->
      b AuthGetUser = Resolved {| gu_user := Some u; gu_error := None |} ->
      after b initAuth st
      = publish (setIsLoading false)
          (after b (onAuthStateChange SIGNED_IN (Some s)) st)).
Proof.
  intros Hu. split; [ | split; [ | split ] ].
  - intros newSession. now split3.
  - unfold trace. rewrite (run_signed_in b s u Hu). cbn [fst].
    eexists. split; [ reflexivity | ].
    rewrite asked_app, asked_app, asked_map_Did. cbn [asked app].
    now rewrite asked_map_Did.
  - cbv zeta. split; [ | split; [ | split ] ].
    + unfold settles. now rewrite (run_signed_in b s u Hu).
    + rewrite (after_signed_in b s u st Hu), !publishAll_cons, publishAll_app.
      destruct (found b u), (activeGrant b (u_id u)); reflexivity.
    + rewrite (after_signed_in b s u st Hu), !publishAll_cons, publishAll_app.
      destruct (found b u), (activeGrant b (u_id u)); reflexivity.
    + rewrite (after_signed_in b s u st Hu).
      replace (publishGrant (activeGrant b (u_id u)))
        with (publishGrant (activeGrant b (u_id u)) ++ []) by apply app_nil_r.
      apply (resolution_outcome_publish b u st
               [setSession (Some s); setUser (Some u)] []);
        intros st0; simpl; auto.
  - intros Hs Hr.
    rewrite (after_initAuth b s _ u st Hs Hr eq_refl eq_refl),
      (after_signed_in b s u st Hu).
    rewrite !publishAll_cons, !publishAll_app. reflexivity.
Qed.

Lemma listener_events_witness :
  let st := after Sample.unreachable
              (onAuthStateChange SIGNED_IN (Some Sample.alice_session))
              initialState in
  session st = Some Sample.alice_session /\ user st = Some Sample.alice.
Proof.
  destruct (listener_events Sample.unreachable Sample.alice_session
              Sample.alice initialState eq_refl) as (_ & _ & H & _).
  destruct H as (_ & Hs & Hu & _). split; assumption.
Defined.

(** The bootstrap runs the whole resolver sequence once session and user
    are published. *)
Lemma bootstrap_runs_identityResolver (b : backend) (s : Session)
    (r : GetUserResult) (u : User) :
  b AuthGetSession = Resolved (Some s) ->
  b AuthGetUser = Resolved r ->
  gu_error r = None -> gu_user r = Some u ->
  trace b initAuth
  = Asked AuthGetSession :: Asked AuthGetUser
      :: Did (setSession (Some s)) :: Did (setUser (Some u))
      :: identityResolver b u ++ [Did (setIsLoading false); Did clearTimeout].
Proof.
  intros Hs Hr He Hu. unfold trace at 1.
  rewrite (run_initAuth b s r u Hs Hr He Hu). cbn [fst].
  unfold identityResolver. do 4 f_equal.
  now rewrite <- !app_assoc, <- app_comm_cons.
Qed.

(** The listener runs it exactly when no repair of the link is due. *)
Lemma listener_runs_identityResolver (b : backend) (s : Session) (u : User) :
  s_user s = Some u ->
  trace b (onAuthStateChange SIGNED_IN (Some s))
  = Did (setSession (Some s)) :: Did (setUser (Some u)) :: identityResolver b u
  <-> backfill (found b u) u = [].
Proof.
  intros Hu. unfold trace at 1. rewrite (run_signed_in b s u Hu). cbn [fst].
  unfold identityResolver. split.
  - intros H. injection H as H. apply app_inv_head in H.
    rewrite map_app, <- app_assoc in H. apply app_inv_head in H.
    apply (f_equal (@List.length entry)) in H.
    rewrite length_app, length_map in H.
    destruct (backfill (found b u) u); [ reflexivity | simpl in H; lia ].
  - intros H. rewrite H, app_nil_r. reflexivity.
Qed.

(** C8.  A signed-in event for Alice, whose participant row is found by
    email and has no stored link.  The bootstrap publishes session and
    user and then runs the whole Identity Resolver sequence, the repair
    of the link included.  The listener publishes the session and the
    user first, then runs the participant lookup and the admin-grant
    check, but not the repair: its run is not the full resolver
    sequence. *)
Theorem signed_in_skips_link_repair :
  let b := Sample.registered in
  let s := Sample.alice_session in
  let u := Sample.alice in
  identityResolver b u
  = [Asked (SelectParticipant col_email "a@x.com");
     Did (setParticipant (Some Sample.alice_row));
     Did (setUserStatus (Some approved)); Did (setIsActualAdmin false);
     Did (updateAuthUserId "p1" "u1"); Asked (SelectAdminUser "u1")]
  /\ trace b initAuth
     = Asked AuthGetSession :: Asked AuthGetUser
         :: Did (setSession (Some s)) :: Did (setUser (Some u))
         :: identityResolver b u
         ++ [Did (setIsLoading false); Did clearTimeout]
  /\ trace b (onAuthStateChange SIGNED_IN (Some s))
     = [Did (setSession (Some s)); Did (setUser (Some u));
        Asked (SelectParticipant col_email "a@x.com");
        Did (setParticipant (Some Sample.alice_row));
        Did (setUserStatus (Some approved)); Did (setIsActualAdmin false);
        Asked (SelectAdminUser "u1")]
  /\ trace b (onAuthStateChange SIGNED_IN (Some s))
     <> Did (setSession (Some s)) :: Did (setUser (Some u))
          :: identityResolver b u.
Proof.
  cbv zeta. split; [ reflexivity | split; [ reflexivity | split ] ].
  - reflexivity.
  - intros H.
    apply (listener_runs_identityResolver Sample.registered
             Sample.alice_session Sample.alice eq_refl) in H.
    discriminate H.
Qed.


(** ** Refreshing the participant *)

Lemma asked_fetchParticipant (b : backend) (u : User) (userId : string) :
  ~ In (SelectAdminUser userId) (asked (trace b (fetchParticipant u))).
Proof.
  destruct (fetchParticipant_first_match b u) as [_ ->].
  intros H. apply in_map_iff in H. destruct H as ([c v] & Hq & _).
  discriminate.
Qed.

Lemma run_refreshParticipant (b : backend) (u : User) :
  run b (refreshParticipant (Some u))
  = (trace b (fetchParticipant u)
       ++ match found b u with
          | Some p => map Did [setParticipant (Some p);
                               setUserStatus (Some approved);
                               setIsActualAdmin (is_admin_or_false p)]
          | None => []
          end,
     Resolved tt).
Proof.
  unfold refreshParticipant.
  rewrite run_bind, run_fetchParticipant.
  destruct (found b u); reflexivity.
Qed.

(** C10.  For a state with a user set: when the lookup of
    [refreshParticipant] returns no participant the state is left exactly
    as it was; the requests it issues are those of the lookup, never the
    admin-grant query; when a participant is found the participant, the
    status 'approved' and the participant's own admin flag are published;
    so isActualAdmin changes only when a participant is found. *)
Theorem refreshParticipant_frame (b : backend) (u : User) (st : AuthState) :
  user st = Some u ->
  let st' := after b (refreshParticipant (user st)) st in
  (settles b (fetchParticipant u) = Resolved None -> st' = st)
  /\ asked (trace b (refreshParticipant (user st)))
     = asked (trace b (fetchParticipant u))
  /\ (forall userId,
        ~ In (SelectAdminUser userId)
             (asked (trace b (refreshParticipant (user st)))))
  /\ (forall p, settles b (fetchParticipant u) = Resolved (Some p) ->
        st' = publishAll [setParticipant (Some p); setUserStatus (Some approved);
                          setIsActualAdmin (is_admin_or_false p)] st)
  /\ (isActualAdmin st' <> isActualAdmin st ->
      exists p, settles b (fetchParticipant u) = Resolved (Some p)).
Proof.
  intros Hu. cbv zeta. rewrite Hu.
  assert (settles b (fetchParticipant u) = Resolved (found b u)) as Hf.
  { unfold settles. now rewrite run_fetchParticipant. }
  assert (asked (trace b (refreshParticipant (Some u)))
          = asked (trace b (fetchParticipant u))) as Ha.
  { unfold trace at 1. rewrite run_refreshParticipant. cbn [fst].
    rewrite asked_app. destruct (found b u); rewrite ?asked_map_Did;
      apply app_nil_r. }
  assert (after b (refreshParticipant (Some u)) st
          = match found b u with
            | Some p => publishAll [setParticipant (Some p);
                                    setUserStatus (Some approved);
                                    setIsActualAdmin (is_admin_or_false p)] st
            | None => st
            end) as Hafter.
  { unfold after, trace at 1. rewrite run_refreshParticipant. cbn [fst].
    rewrite done_app, publishAll_app, fetchParticipant_publishes_nothing.
    destruct (found b u); reflexivity. }
  rewrite Hf, Hafter, Ha. split5.
  - intros [= ->]. reflexivity.
  - reflexivity.
  - intros userId. apply asked_fetchParticipant.
  - intros p [= ->]. reflexivity.
  - destruct (found b u) as [p | ]; [ eauto | congruence ].
Qed.

Lemma refreshParticipant_frame_witness :
  after Sample.unknown (refreshParticipant (Some Sample.alice))
    Sample.admin_state = Sample.admin_state.
Proof.
  exact (proj1 (refreshParticipant_frame Sample.unknown Sample.alice
                  Sample.admin_state eq_refl) eq_refl).
Defined.

(** A holder of an active grant whose participant row is not an
    administrator: the bootstrap ends with isActualAdmin, a later
    [refreshParticipant] overwrites it with the participant's flag. *)
Example refreshParticipant_overwrites_grant :
  let st := after Sample.granted_and_registered initAuth initialState in
  isActualAdmin st = true
  /\ isActualAdmin (after Sample.granted_and_registered
                      (refreshParticipant (user st)) st) = false.
Proof. split; reflexivity. Qed.

(** ** The server-side database client *)

Lemma forallb_rev {A : Type} (f : A -> bool) (l : list A) :
  forallb f (rev l) = forallb f l.
Proof.
  induction l as [ | x l IH]; simpl; [ reflexivity | ].
  rewrite forallb_app, IH. simpl. rewrite andb_true_r. apply andb_comm.
Qed.

Lemma trimStart_nil (s : SupabaseServer.jsstring) :
  SupabaseServer.trimStart s = []
  <-> forallb SupabaseServer.is_white_space s = true.
Proof.
  induction s as [ | c s IH]; simpl; [ easy | ].
  destruct (SupabaseServer.is_white_space c); simpl; [ exact IH | easy ].
Qed.

Lemma forallb_trimStart (s : SupabaseServer.jsstring) :
  forallb SupabaseServer.is_white_space (SupabaseServer.trimStart s)
  = forallb SupabaseServer.is_white_space s.
Proof.
  induction s as [ | c s IH]; simpl; [ reflexivity | ].
  destruct (SupabaseServer.is_white_space c) eqn:Hc; simpl;
    [ exact IH | now rewrite Hc ].
Qed.

(** [!value.trim()] holds exactly for the strings made of white space
    only, the empty string among them. *)
Lemma trim_nil (s : SupabaseServer.jsstring) :
  SupabaseServer.trim s = []
  <-> forallb SupabaseServer.is_white_space s = true.
Proof.
  unfold SupabaseServer.trim, SupabaseServer.trimEnd.
  rewrite <- forallb_trimStart,
    <- (forallb_rev _ (SupabaseServer.trimStart s)), <- trimStart_nil.
  split; intros H.
  - apply (f_equal (@rev N)) in H. now rewrite rev_involutive in H.
  - now rewrite H.
Qed.

Lemma getRequiredEnv_missing (env : SupabaseServer.environment) (name : string) :
  SupabaseServer.unset_or_blank env name ->
  SupabaseServer.getRequiredEnv env name
  = Rejected (Error (SupabaseServer.missing_env_message name)).
Proof.
  unfold SupabaseServer.unset_or_blank, SupabaseServer.getRequiredEnv.
  destruct (env name) as [value | ]; [ | reflexivity ].
  intros H. apply trim_nil in H. now rewrite H.
Qed.

Lemma getRequiredEnv_present (env : SupabaseServer.environment) (name : string) :
  ~ SupabaseServer.unset_or_blank env name ->
  exists value, env name = Some value
                /\ SupabaseServer.getRequiredEnv env name = Resolved value.
Proof.
  unfold SupabaseServer.unset_or_blank, SupabaseServer.getRequiredEnv.
  destruct (env name) as [value | ]; [ | easy ].
  intros H. exists value. split; [ reflexivity | ].
  destruct (SupabaseServer.trim value) eqn:Ht; [ | reflexivity ].
  apply trim_nil in Ht. contradiction.
Qed.

Lemma unset_or_blank_dec (env : SupabaseServer.environment) (name : string) :
  SupabaseServer.unset_or_blank env name
  \/ ~ SupabaseServer.unset_or_blank env name.
Proof.
  unfold SupabaseServer.unset_or_blank.
  destruct (env name) as [value | ]; [ | now left ].
  destruct (forallb SupabaseServer.is_white_space value); [ now left | now right ].
Qed.

(** C9.  Constructing the server-side client fails fast on missing
    configuration: when NEXT_PUBLIC_SUPABASE_URL or
    NEXT_PUBLIC_SUPABASE_ANON_KEY is unset or holds only white space, the
    function throws the error whose message names a variable that is
    missing (the URL when it is missing, the key otherwise) and builds no
    client; with both present it returns the client built from the two
    values as they are. *)
Theorem createServerSupabaseClient_requires_env
    {Client CookieStore : Type}
    (createServerClient :
       SupabaseServer.jsstring -> SupabaseServer.jsstring -> CookieStore -> Client)
    (env : SupabaseServer.environment) (cookieStore : CookieStore) :
  let url := "NEXT_PUBLIC_SUPABASE_URL" in
  let key := "NEXT_PUBLIC_SUPABASE_ANON_KEY" in
  let client :=
    SupabaseServer.createServerSupabaseClient createServerClient env cookieStore in
  (SupabaseServer.unset_or_blank env url \/ SupabaseServer.unset_or_blank env key ->
     exists name, (name = url \/ name = key)
       /\ SupabaseServer.unset_or_blank env name
       /\ client = Rejected (Error (SupabaseServer.missing_env_message name))
       /\ SupabaseServer.missing_env_message name
          = ("Missing env: " ++ name
             ++ ". Set it in Vercel → Project → Settings → Environment Variables.")%string)
  /\ (SupabaseServer.unset_or_blank env url ->
        client = Rejected (Error (SupabaseServer.missing_env_message url)))
  /\ (~ SupabaseServer.unset_or_blank env url ->
      ~ SupabaseServer.unset_or_blank env key ->
        exists u k, env url = Some u /\ env key = Some k
                    /\ client = Resolved (createServerClient u k cookieStore)).
Proof.
  cbv zeta.
  assert (SupabaseServer.unset_or_blank env "NEXT_PUBLIC_SUPABASE_URL" ->
          SupabaseServer.createServerSupabaseClient createServerClient env cookieStore
          = Rejected (Error (SupabaseServer.missing_env_message
                               "NEXT_PUBLIC_SUPABASE_URL"))) as Hurl.
  { intros H. unfold SupabaseServer.createServerSupabaseClient.
    now rewrite (getRequiredEnv_missing env _ H). }
  split3.
  - intros Hm.
    destruct (unset_or_blank_dec env "NEXT_PUBLIC_SUPABASE_URL") as [Hu | Hu].
    + exists "NEXT_PUBLIC_SUPABASE_URL". auto.
    + destruct Hm as [Hm | Hm]; [ contradiction | ].
      exists "NEXT_PUBLIC_SUPABASE_ANON_KEY". split; [ auto | ].
      split; [ exact Hm | ]. split; [ | reflexivity ].
      unfold SupabaseServer.createServerSupabaseClient.
      destruct (getRequiredEnv_present env _ Hu) as (u & _ & ->).
      now rewrite (getRequiredEnv_missing env _ Hm).
  - exact Hurl.
  - intros Hu Hk.
    destruct (getRequiredEnv_present env _ Hu) as (u & Eu & Hgu).
    destruct (getRequiredEnv_present env _ Hk) as (k & Ek & Hgk).
    exists u, k. split3; trivial.
    unfold SupabaseServer.createServerSupabaseClient. now rewrite Hgu, Hgk.
Qed.

(** ** What the asynchronous functions may do *)

Ltac crush_prog :=
  repeat (simpl;
          match goal with
          | |- True => exact I
          | |- ?x = ?x => reflexivity
          | |- _ /\ _ => split
          | |- forall _, _ => intro
          | |- context [match ?x with _ => _ end] => destruct x
          end).

Lemma never_loading_true_initAuth : never is_loading_true initAuth.
Proof. unfold initAuth, fetchParticipant, checkAdminUser. crush_prog. Qed.

Lemma completes_initAuth : completes false initAuth.
Proof. unfold initAuth, fetchParticipant, checkAdminUser. crush_prog. Qed.

Lemma listener_never (e : AuthChangeEvent) (s : option Session) :
  never is_loading_true (onAuthStateChange e s)
  /\ never is_clearTimeout (onAuthStateChange e s).
Proof. unfold onAuthStateChange, fetchParticipant, checkAdminUser. crush_prog. Qed.

Lemma signOut_never :
  never is_loading_true signOut /\ never is_clearTimeout signOut.
Proof. unfold signOut. crush_prog. Qed.

Lemma refreshParticipant_never (u : option User) :
  never is_loading_true (refreshParticipant u)
  /\ never is_clearTimeout (refreshParticipant u).
Proof. unfold refreshParticipant, fetchParticipant. crush_prog. Qed.

Lemma signIn_never (a b0 : string) :
  (never is_loading_true (signInWithEmail a b0 ;; Ret tt)
   /\ never is_clearTimeout (signInWithEmail a b0 ;; Ret tt))
  /\ (never is_loading_true (signInWithMagicLink a b0 ;; Ret tt)
   /\ never is_clearTimeout (signInWithMagicLink a b0 ;; Ret tt)).
Proof. unfold signInWithEmail, signInWithMagicLink. crush_prog. Qed.

(** ** The invariant is kept *)

Lemma completes_mono {R : Type} (p : prog R) (l l' : bool) :
  (l = true -> l' = true) -> completes l p -> completes l' p.
Proof.
  revert l l'. induction p as [r | e | a k IH | q k IH]; simpl; intros l l' Hl;
    auto.
  - destruct (is_clearTimeout a).
    + intros [H1 H2]. auto.
    + apply IH. intros H. apply orb_true_iff in H. apply orb_true_iff.
      destruct H; auto.
  - intros H o. apply (IH o l l' Hl (H o)).
Qed.




Lemma publish_loading (a : action) (st : AuthState) :
  is_loading_true a = false -> isLoading st = false ->
  isLoading (publish a st) = false.
Proof. destruct a as [ | | | [] | | | | | | | ]; simpl; intros; try discriminate; auto. Qed.

Lemma publish_loaded (a : action) (st : AuthState) :
  is_loading_true a = false ->
  negb (isLoading (publish a st)) = negb (isLoading st) || is_loading_false a.
Proof.
  destruct a as [ | | | [] | | | | | | | ]; simpl; rewrite ?orb_false_r, ?orb_true_r;
    intros; try discriminate; auto.
Qed.

Lemma cancel_settled (t : option Timer) :
  (forall t0, t = Some t0 -> status t0 <> timer_pending) -> cancel t = t.
Proof.
  destruct t as [[d []] | ]; simpl; intros H; auto.
  now destruct (H _ eq_refl).
Qed.

Lemma advance_frame (o : origin) (p : prog unit) (P : Provider) :
  authInitialized (advance o p P) = authInitialized P
  /\ subscribed (advance o p P) = subscribed P
  /\ clock (advance o p P) = clock P.
Proof.
  revert P. induction p as [r | e | a k IH | q k IH]; simpl; intros P; auto.
  destruct (IH (perform a P)) as (-> & -> & ->). auto.
Qed.

Lemma advance_loading (o : origin) (p : prog unit) (P : Provider) :
  never is_loading_true p -> isLoading (published P) = false ->
  isLoading (published (advance o p P)) = false.
Proof.
  revert P. induction p as [r | e | a k IH | q k IH]; simpl; intros P; auto.
  intros [Ha Hk] HP. apply IH; trivial. simpl. now apply publish_loading.
Qed.

Lemma advance_timer_settled (o : origin) (p : prog unit) (P : Provider) :
  (forall t, safetyTimeout P = Some t -> status t <> timer_pending) ->
  safetyTimeout (advance o p P) = safetyTimeout P.
Proof.
  revert P. induction p as [r | e | a k IH | q k IH]; simpl; intros P H; auto.
  assert (safetyTimeout (perform a P) = safetyTimeout P) as E.
  { simpl. destruct a; trivial. now apply cancel_settled. }
  rewrite IH; [ exact E | ]. now rewrite E.
Qed.

Lemma init_count_app (l1 l2 : list Suspended) :
  init_count (l1 ++ l2) = init_count l1 + init_count l2.
Proof. unfold init_count. now rewrite filter_app, length_app. Qed.

Lemma bootstrapping_count (l : list Suspended) :
  existsb (fun t => is_initAuth (owner t)) l = false <-> init_count l = 0.
Proof.
  unfold init_count. induction l as [ | t l IH]; simpl; [ easy | ].
  destruct (is_initAuth (owner t)); simpl; [ easy | exact IH ].
Qed.

Lemma bootstrapping_true_count (l : list Suspended) :
  existsb (fun t => is_initAuth (owner t)) l = true <-> init_count l <> 0.
Proof.
  rewrite <- bootstrapping_count. destruct (existsb _ l); easy.
Qed.

Lemma In_remove_nth {A : Type} (i : nat) (l : list A) (x : A) :
  In x (remove_nth i l) -> In x l.
Proof.
  revert i. induction l as [ | y l IH]; intros [ | i]; simpl; auto.
  intros [-> | H]; eauto.
Qed.

Lemma init_count_remove_nth (i : nat) (l : list Suspended) (t : Suspended) :
  nth_error l i = Some t ->
  init_count l
  = (if is_initAuth (owner t) then 1 else 0) + init_count (remove_nth i l).
Proof.
  unfold init_count. revert i. induction l as [ | y l IH]; intros [ | i]; simpl;
    try discriminate.
  - intros [= ->]. destruct (is_initAuth (owner t)); reflexivity.
  - intros H.
    destruct (is_initAuth (owner y)); simpl; rewrite (IH _ H);
      destruct (is_initAuth (owner t)); simpl; lia.
Qed.

Lemma tasks_ok_mono (l l' : bool) (ts : list Suspended) :
  (l = true -> l' = true) -> tasks_ok l ts -> tasks_ok l' ts.
Proof.
  intros Hl H t Hin o. destruct (H t Hin o) as [H1 H2]. split; trivial.
  destruct (is_initAuth (owner t)); trivial. now apply (completes_mono _ l l').
Qed.

Lemma timer_ok_frame (P P' : Provider) :
  safetyTimeout P' = safetyTimeout P ->
  authInitialized P' = authInitialized P ->
  subscribed P' = subscribed P ->
  bootstrapping P' = bootstrapping P ->
  clock P' = clock P ->
  (isLoading (published P) = false -> isLoading (published P') = false) ->
  timer_ok P -> timer_ok P'.
Proof.
  unfold timer_ok. intros -> -> -> -> -> Hl.
  destruct (safetyTimeout P) as [[d []] | ]; simpl; intuition.
Qed.

Lemma perform_invariant (a : action) (P : Provider) :
  invariant P -> is_loading_true a = false ->
  (is_clearTimeout a = true -> bootstrapping P = false) ->
  invariant (perform a P).
Proof.
  intros (Ht & Hc & Htm) Ha Hclr. split3.
  - simpl. apply (tasks_ok_mono (negb (isLoading (published P)))); trivial.
    rewrite (publish_loaded a _ Ha). intros ->. reflexivity.
  - exact Hc.
  - apply (timer_ok_frame P); trivial.
    + simpl. destruct a; trivial. apply cancel_settled.
      intros t Et Hs. specialize (Hclr eq_refl).
      unfold timer_ok in Htm. rewrite Et, Hs in Htm.
      destruct Htm as (_ & [_ Hb] & _). congruence.
    + simpl. now apply publish_loading.
Qed.

Lemma bootstrapping_park (t : Suspended) (P : Provider) :
  bootstrapping (park t P) = bootstrapping P || is_initAuth (owner t).
Proof.
  unfold bootstrapping. simpl. rewrite existsb_app. simpl.
  now rewrite orb_false_r.
Qed.

Lemma park_invariant (o : origin) (q : request)
    (k : outcome (response q) -> prog unit) (P : Provider) :
  invariant P -> is_initAuth o = false ->
  (forall out, never is_loading_true (k out) /\ never is_clearTimeout (k out)) ->
  invariant (park {| owner := o; waiting := q; resume := k |} P).
Proof.
  intros (Ht & Hc & Htm) Ho Hk. split3.
  - simpl. intros t Hin out. apply in_app_iff in Hin.
    destruct Hin as [Hin | [<- | []]]; [ now apply Ht | ].
    simpl. rewrite Ho. apply Hk.
  - simpl. rewrite init_count_app. unfold init_count at 2. simpl. rewrite Ho.
    simpl. lia.
  - apply (timer_ok_frame P); trivial.
    rewrite bootstrapping_park. simpl. rewrite Ho. apply orb_false_r.
Qed.

Lemma reject_invariant (e : exn) (P : Provider) :
  invariant P -> invariant (reject e P).
Proof.
  intros (Ht & Hc & Htm). split3; trivial.
Qed.

(** A function other than the bootstrap runs a turn. *)
Lemma advance_other (o : origin) (p : prog unit) (P : Provider) :
  is_initAuth o = false ->
  never is_loading_true p -> never is_clearTimeout p ->
  invariant P -> invariant (advance o p P).
Proof.
  intros Ho. revert P.
  induction p as [r | e | a k IH | q k IH]; simpl; intros P Hl Hc HP.
  - exact HP.
  - now apply reject_invariant.
  - destruct Hl as [Hla Hlk], Hc as [Hca Hck]. apply IH; trivial.
    apply perform_invariant; trivial. congruence.
  - apply park_invariant; trivial. intros out. split; [ apply Hl | apply Hc ].
Qed.

Lemma advance_bootstrapping_sync (o : origin) (p : prog unit) (P : Provider) :
  synchronous p = true -> suspended (advance o p P) = suspended P.
Proof.
  revert P. induction p as [r | e | a k IH | q k IH]; simpl; intros P H; trivial.
  - now rewrite IH.
  - discriminate.
Qed.

(** The rest of a turn once the bootstrap has cleared the timer. *)
Lemma advance_sync (o : origin) (p : prog unit) (P : Provider) :
  synchronous p = true -> never is_loading_true p ->
  bootstrapping P = false ->
  invariant P -> invariant (advance o p P).
Proof.
  revert P.
  induction p as [r | e | a k IH | q k IH]; simpl; intros P Hs Hl Hb HP.
  - exact HP.
  - now apply reject_invariant.
  - destruct Hl as [Hla Hlk]. apply IH; trivial.
    apply perform_invariant; trivial.
  - discriminate.
Qed.

(** The bootstrap runs a turn. *)
Lemma advance_init (p : prog unit) (P : Provider) :
  never is_loading_true p ->
  completes (negb (isLoading (published P))) p ->
  tasks_ok (negb (isLoading (published P))) (suspended P) ->
  init_count (suspended P) = 0 ->
  timer_mid P ->
  invariant (advance from_initAuth p P).
Proof.
  revert P.
  induction p as [r | e | a k IH | q k IH]; simpl; intros P Hl Hc Ht H0 Hm;
    try contradiction.
  - destruct Hl as [Hla Hlk].
    destruct (is_clearTimeout a) eqn:Ha.
    + destruct Hc as [Hld Hs]. apply negb_true_iff in Hld.
      assert (bootstrapping P = false) as Hb by now apply bootstrapping_count.
      apply advance_sync; trivial.
      destruct a; try discriminate.
      destruct Hm as (Hi & t & Et & Hst).
      split3; simpl; trivial; [ lia | ].
      unfold timer_ok. simpl. rewrite Et.
      change (bootstrapping (perform clearTimeout P)) with (bootstrapping P).
      rewrite Hb.
      destruct t as [d []]; simpl in *; intuition congruence.
    + apply IH; trivial.
      * simpl. now rewrite (publish_loaded a _ Hla).
      * simpl. apply (tasks_ok_mono (negb (isLoading (published P)))); trivial.
        rewrite (publish_loaded a _ Hla). intros ->. reflexivity.
      * destruct Hm as (Hi & t & Et & Hst). split; trivial. exists t.
        simpl. destruct a; try discriminate; split; trivial;
          destruct (status t); intuition.
        now apply publish_loading.
  - assert (bootstrapping P = false) as Hb by now apply bootstrapping_count.
    destruct Hm as (Hi & t & Et & Hst). split3.
    + simpl. intros t0 Hin out. apply in_app_iff in Hin.
      destruct Hin as [Hin | [<- | []]]; [ now apply Ht | ].
      simpl. split; [ apply Hl | apply Hc ].
    + simpl. rewrite init_count_app, H0. reflexivity.
    + unfold timer_ok. rewrite bootstrapping_park. simpl. rewrite Et, orb_true_r.
      split; trivial. split; [ | discriminate ].
      destruct (status t); auto.
Qed.

Lemma bootstrapping_eqb (P : Provider) :
  bootstrapping P = negb (Nat.eqb (init_count (suspended P)) 0).
Proof.
  unfold bootstrapping.
  destruct (existsb _ (suspended P)) eqn:E.
  - apply bootstrapping_true_count in E. now destruct (init_count (suspended P)).
  - apply bootstrapping_count in E. now rewrite E.
Qed.

Lemma initAuth_head :
  exists k, initAuth = Await AuthGetSession k
            /\ forall o, never is_loading_true (k o) /\ completes false (k o).
Proof.
  eexists. split; [ reflexivity | ].
  intros o. split;
    [ apply (never_loading_true_initAuth o) | apply (completes_initAuth o) ].
Qed.

Lemma is_initAuth_owner (o : origin) : is_initAuth o = true -> o = from_initAuth.
Proof. now destruct o. Qed.

Lemma mount_invariant (P : Provider) : invariant P -> invariant (mount P).
Proof.
  intros (Ht & Hc & Htm). unfold mount.
  destruct (authInitialized P) eqn:Hi; [ now split3 | ].
  destruct initAuth_head as (k & -> & Hk). simpl.
  unfold timer_ok in Htm.
  destruct (safetyTimeout P) as [t | ]; [ destruct Htm; congruence | ].
  destruct Htm as (_ & Hsub & Hb).
  split3; simpl.
  - intros t Hin out. apply in_app_iff in Hin.
    destruct Hin as [Hin | [<- | []]]; [ now apply Ht | ].
    simpl. destruct (Hk out) as [H1 H2]. split; trivial.
    now apply (completes_mono _ false).
  - rewrite init_count_app. apply bootstrapping_count in Hb. rewrite Hb.
    reflexivity.
  - unfold timer_ok, bootstrapping. simpl. rewrite existsb_app. simpl.
    rewrite orb_true_r. split; trivial. split; [ | discriminate ].
    split; [ lia | reflexivity ].
Qed.

Lemma unmount_invariant (P : Provider) : invariant P -> invariant (unmount P).
Proof.
  intros (Ht & Hc & Htm). unfold unmount.
  destruct (subscribed P) eqn:Hs; [ | now split3 ].
  split3; trivial.
  unfold timer_ok in *. simpl.
  change (bootstrapping _) with (bootstrapping P).
  destruct (safetyTimeout P) as [[d []] | ]; simpl in *; intuition.
Qed.

Lemma elapse_invariant (d : N) (P : Provider) :
  invariant P -> invariant (elapse d P).
Proof.
  intros (Ht & Hc & Htm). unfold elapse. unfold timer_ok in Htm.
  destruct (safetyTimeout P) as [[dl st] | ] eqn:Et.
  - destruct Htm as (Hi & Hst & Hb).
    destruct st; simpl in Hst.
    + destruct (dl <=? clock P + d)%N eqn:Hd.
      * apply N.leb_le in Hd. simpl. split3; simpl.
        -- apply (tasks_ok_mono (negb (isLoading (published P)))); auto.
        -- exact Hc.
        -- unfold timer_ok. simpl. auto.
      * apply N.leb_gt in Hd. split3; simpl; trivial.
        unfold timer_ok; simpl; rewrite ?Et; simpl.
        change (bootstrapping _) with (bootstrapping P). intuition.
    + split3; simpl; trivial;
        unfold timer_ok; simpl; rewrite ?Et; simpl;
        change (bootstrapping _) with (bootstrapping P); intuition.
    + split3; simpl; trivial;
        unfold timer_ok; simpl; rewrite ?Et; simpl;
        change (bootstrapping _) with (bootstrapping P); intuition; lia.
  - split3; simpl; trivial;
      unfold timer_ok; simpl; rewrite ?Et;
      change (bootstrapping _) with (bootstrapping P); exact Htm.
Qed.

Lemma settle_invariant (i : nat) (b : backend) (P : Provider) :
  invariant P -> invariant (settle i b P).
Proof.
  intros (Ht & Hc & Htm). unfold settle.
  destruct (nth_error (suspended P) i) as [t | ] eqn:Hn; [ | now split3 ].
  pose proof (nth_error_In _ _ Hn) as Hin.
  pose proof (init_count_remove_nth i _ t Hn) as Hcount.
  destruct (Ht t Hin (b (waiting t))) as [Hl Hk].
  assert (tasks_ok (negb (isLoading (published P)))
            (remove_nth i (suspended P))) as Ht'.
  { intros t' Hin'. apply Ht. now apply In_remove_nth in Hin'. }
  destruct (is_initAuth (owner t)) eqn:Ho.
  - rewrite (is_initAuth_owner _ Ho).
    apply advance_init; simpl; trivial; [ lia | ].
    assert (bootstrapping P = true) as Hb.
    { rewrite bootstrapping_eqb. destruct (init_count (suspended P)); [ lia | easy ]. }
    unfold timer_ok in Htm. unfold timer_mid. simpl.
    destruct (safetyTimeout P) as [[dl st] | ];
      [ | destruct Htm as (_ & _ & Hb'); congruence ].
    destruct Htm as (Hi & Hst & _). split; trivial.
    exists {| deadline := dl; status := st |}. split; trivial.
    destruct st; simpl in *; intuition.
  - apply advance_other; trivial.
    split3; simpl; trivial; [ lia | ].
    apply (timer_ok_frame P); trivial.
    rewrite !bootstrapping_eqb. simpl. now rewrite Hcount.
Qed.

Lemma step_invariant (P : Provider) (ev : event) :
  invariant P -> invariant (step P ev).
Proof.
  intros HP. destruct ev as [ | | d | i b | e s | | | v | em pw | og em | hu ]; unfold step.
  - now apply mount_invariant.
  - now apply unmount_invariant.
  - now apply elapse_invariant.
  - now apply settle_invariant.
  - destruct (subscribed P); trivial.
    apply advance_other; trivial; apply listener_never.
  - apply advance_other; trivial; apply signOut_never.
  - apply advance_other; trivial; apply refreshParticipant_never.
  - destruct HP as (Ht & Hc & Htm). split3; trivial.
  - apply advance_other; trivial; apply (signIn_never em pw).
  - apply advance_other; trivial; apply (signIn_never em og).
  - apply advance_other; trivial; apply refreshParticipant_never.
Qed.

Lemma initial_invariant : invariant initialProvider.
Proof.
  split3; [ intros t [] | unfold init_count; simpl; lia | now split3 ].
Qed.

Lemma steps_invariant (P : Provider) (evs : list event) :
  invariant P -> invariant (steps P evs).
Proof.
  revert P. induction evs as [ | ev evs IH]; simpl; intros P HP; trivial.
  apply IH. now apply step_invariant.
Qed.

Lemma reachable_invariant (P : Provider) : reachable P -> invariant P.
Proof. intros [evs ->]. apply steps_invariant, initial_invariant. Qed.

(** ** The safety timer *)

Lemma advance_other_suspended (o : origin) (p : prog unit) (P : Provider) :
  is_initAuth o = false ->
  init_count (suspended (advance o p P)) = init_count (suspended P).
Proof.
  intros Ho. revert P.
  induction p as [r | e | a k IH | q k IH]; simpl; intros P; trivial.
  - now rewrite IH.
  - rewrite init_count_app. unfold init_count at 2. simpl. rewrite Ho. simpl. lia.
Qed.

Lemma bootstrapCompleted_iff (P : Provider) :
  bootstrapCompleted P = true
  <-> authInitialized P = true /\ init_count (suspended P) = 0.
Proof.
  unfold bootstrapCompleted. rewrite andb_true_iff, negb_true_iff.
  unfold bootstrapping. now rewrite bootstrapping_count.
Qed.

Lemma completed_timer (P : Provider) :
  invariant P -> bootstrapCompleted P = true ->
  isLoading (published P) = false
  /\ forall t, safetyTimeout P = Some t -> status t <> timer_pending.
Proof.
  intros (_ & _ & Htm) Hc. apply bootstrapCompleted_iff in Hc.
  destruct Hc as [Hi H0]. apply bootstrapping_count in H0.
  fold (bootstrapping P) in H0. unfold timer_ok in Htm.
  destruct (safetyTimeout P) as [t | ]; [ | destruct Htm; congruence ].
  destruct Htm as (_ & Hst & Hl). split; [ auto | ].
  intros t0 [= <-] Hp. rewrite Hp in Hst. destruct Hst. congruence.
Qed.

(** Once the bootstrap has completed, no event changes the timer, and
    the bootstrap stays completed. *)
Lemma step_completed (P : Provider) (ev : event) :
  invariant P -> bootstrapCompleted P = true ->
  safetyTimeout (step P ev) = safetyTimeout P
  /\ bootstrapCompleted (step P ev) = true.
Proof.
  intros HP Hc. destruct (completed_timer P HP Hc) as [Hl Hst].
  apply bootstrapCompleted_iff in Hc. destruct Hc as [Hi H0].
  assert (forall o p, is_initAuth o = false ->
            safetyTimeout (advance o p P) = safetyTimeout P
            /\ bootstrapCompleted (advance o p P) = true) as Hadv.
  { intros o p Ho. split; [ now apply advance_timer_settled | ].
    apply bootstrapCompleted_iff.
    destruct (advance_frame o p P) as (-> & _ & _).
    now rewrite advance_other_suspended. }
  destruct ev as [ | | d | i b | e s | | | v | em pw | og em | hu ]; unfold step;
    try (now apply Hadv).
  - unfold mount. rewrite Hi. split; trivial. now apply bootstrapCompleted_iff.
  - unfold unmount. destruct (subscribed P); simpl.
    + split; [ now apply cancel_settled | now apply bootstrapCompleted_iff ].
    + split; trivial. now apply bootstrapCompleted_iff.
  - unfold elapse.
    destruct (safetyTimeout P) as [[dl []] | ] eqn:Et; simpl;
      try (split; [ reflexivity | now apply bootstrapCompleted_iff ]).
    now destruct (Hst _ eq_refl).
  - unfold settle.
    destruct (nth_error (suspended P) i) as [t | ] eqn:Hn;
      [ | split; trivial; now apply bootstrapCompleted_iff ].
    pose proof (init_count_remove_nth i _ t Hn) as Hcount.
    destruct (is_initAuth (owner t)) eqn:Ho; [ lia | ].
    split.
    + now rewrite advance_timer_settled.
    + apply bootstrapCompleted_iff.
      destruct (advance_frame (owner t) (resume t (b (waiting t)))
                  {| published := published P;
                     authInitialized := authInitialized P;
                     safetyTimeout := safetyTimeout P;
                     subscribed := subscribed P; clock := clock P;
                     suspended := remove_nth i (suspended P);
                     effects := effects P; uncaught := uncaught P |})
        as (-> & _ & _).
      rewrite advance_other_suspended; trivial. simpl. split; trivial. lia.
  - destruct (subscribed P); [ now apply Hadv | ].
    split; trivial. now apply bootstrapCompleted_iff.
  - split; trivial. now apply bootstrapCompleted_iff.
Qed.

(** No event publishes [loading = true]. *)
Lemma step_loading (P : Provider) (ev : event) :
  invariant P -> isLoading (published P) = false ->
  isLoading (published (step P ev)) = false.
Proof.
  intros (Ht & _ & _) Hl.
  destruct ev as [ | | d | i b | e s | | | v | em pw | og em | hu ]; unfold step.
  - unfold mount. destruct (authInitialized P); exact Hl.
  - unfold unmount. now destruct (subscribed P).
  - unfold elapse.
    destruct (safetyTimeout P) as [[dl []] | ]; trivial.
    now destruct (dl <=? clock P + d)%N.
  - unfold settle. destruct (nth_error (suspended P) i) as [t | ] eqn:Hn; trivial.
    apply advance_loading; trivial.
    apply (Ht t (nth_error_In _ _ Hn)).
  - destruct (subscribed P); trivial.
    apply advance_loading; trivial. apply listener_never.
  - apply advance_loading; trivial. apply signOut_never.
  - apply advance_loading; trivial. apply refreshParticipant_never.
  - exact Hl.
  - apply advance_loading; trivial. apply (signIn_never em pw).
  - apply advance_loading; trivial. apply (signIn_never em og).
  - apply advance_loading; trivial. apply refreshParticipant_never.
Qed.

Lemma steps_loading (P : Provider) (evs : list event) :
  invariant P -> isLoading (published P) = false ->
  isLoading (published (steps P evs)) = false.
Proof.
  revert P. induction evs as [ | ev evs IH]; simpl; intros P HP Hl; trivial.
  apply IH; [ now apply step_invariant | now apply step_loading ].
Qed.

Lemma steps_completed (P : Provider) (evs : list event) :
  invariant P -> bootstrapCompleted P = true ->
  safetyTimeout (steps P evs) = safetyTimeout P
  /\ bootstrapCompleted (steps P evs) = true.
Proof.
  revert P. induction evs as [ | ev evs IH]; simpl; intros P HP Hc; auto.
  destruct (step_completed P ev HP Hc) as [Et Hc'].
  destruct (IH (step P ev) (step_invariant P ev HP) Hc') as [Et' Hc''].
  split; congruence.
Qed.

(** The safety timer while the effect stays mounted.  In every state the
    provider reaches: the first mount arms the
    timer 10000 ms ahead with the bootstrap in flight; while the cleanup
    of the effect has not run and the bootstrap has not completed, the
    timer is pending until its deadline, the clock reaching the deadline
    makes it fire, log the warning and publish loading = false, and past
    the deadline it has fired and loading is false; however its requests
    settle, the bootstrap ends by publishing loading = false and clearing
    the timer; once the bootstrap has completed loading is false and the
    timer is not pending, and no later event changes the timer, so it
    never fires after completion; and no event makes loading true
    again. *)
Theorem safety_timer (evs : list event) :
  let P := steps initialProvider evs in
  (authInitialized P = false ->
     safetyTimeout (step P Mount)
     = Some {| deadline := (clock P + 10000)%N; status := timer_pending |}
     /\ bootstrapping (step P Mount) = true)
  /\ (subscribed P = true -> bootstrapping P = true ->
      exists t, safetyTimeout P = Some t
        /\ (((clock P < deadline t)%N /\ status t = timer_pending
             /\ forall d, (deadline t <= clock P + d)%N ->
                  let P' := step P (Elapse d) in
                  isLoading (published P') = false
                  /\ timerStatus P' = Some timer_fired
                  /\ effects P'
                     = setIsLoading false
                         :: console_warn "Auth initialization timed out"
                         :: effects P)
            \/ ((deadline t <= clock P)%N /\ status t = timer_fired
                /\ isLoading (published P) = false)))
  /\ completes false initAuth
  /\ (bootstrapCompleted P = true ->
      isLoading (published P) = false
      /\ timerStatus P <> Some timer_pending
      /\ forall evs',
           timerStatus (steps P evs') = timerStatus P
           /\ bootstrapCompleted (steps P evs') = true
           /\ isLoading (published (steps P evs')) = false)
  /\ (isLoading (published P) = false ->
      forall evs', isLoading (published (steps P evs')) = false).
Proof.
  cbv zeta.
  assert (invariant (steps initialProvider evs)) as HP
    by apply steps_invariant, initial_invariant.
  set (P := steps initialProvider evs) in *. clearbody P.
  split5.
  - intros Hi. unfold step, mount. rewrite Hi. split; [ reflexivity | ].
    unfold bootstrapping. simpl. rewrite existsb_app. simpl.
    apply orb_true_r.
  - intros Hs Hb. destruct HP as (_ & _ & Htm). unfold timer_ok in Htm.
    destruct (safetyTimeout P) as [[dl st] | ] eqn:Et;
      [ | destruct Htm as (_ & _ & Hb'); congruence ].
    destruct Htm as (_ & Hst & _). eexists. split; [ reflexivity | ].
    destruct st; simpl in *.
    + left. destruct Hst as [Hlt _]. split3; trivial.
      intros d Hd. unfold step, elapse. rewrite Et.
      apply N.leb_le in Hd. rewrite Hd. now split3.
    + specialize (Hst Hb). congruence.
    + right. destruct Hst. now split3.
  - exact completes_initAuth.
  - intros Hc. destruct (completed_timer P HP Hc) as [Hl Hst]. split3; trivial.
    + unfold timerStatus. destruct (safetyTimeout P) as [t | ]; [ | easy ].
      simpl. intros [= H]. now apply (Hst t).
    + intros evs'. destruct (steps_completed P evs' HP Hc) as [Et Hc'].
      split3; trivial.
      * unfold timerStatus. now rewrite Et.
      * now apply steps_loading.
  - intros Hl evs'. now apply steps_loading.
Qed.

(** A bootstrap that hangs on its first request: at 10000 ms the timer
    fires and publishes loading = false. *)
Example bootstrap_hangs :
  let P := steps initialProvider [Mount; Elapse 9999] in
  let P' := step P (Elapse 1) in
  isLoading (published P) = true /\ timerStatus P = Some timer_pending
  /\ bootstrapping P' = true
  /\ isLoading (published P') = false /\ timerStatus P' = Some timer_fired.
Proof. vm_compute. repeat split. Qed.

(** The four ways the bootstrap completes: no session, a session that
    fails validation, success, a caught exception.  Each ends loading
    and clears the timer, which then does not fire at its deadline. *)
Example bootstrap_no_session :
  let P := steps initialProvider [Mount; Elapse 20; Settle 0 Sample.signed_out] in
  bootstrapCompleted P = true /\ isLoading (published P) = false
  /\ user (published P) = None
  /\ timerStatus P = Some timer_cleared
  /\ timerStatus (step P (Elapse 10000)) = Some timer_cleared
  /\ effects (step P (Elapse 10000)) = effects P.
Proof. vm_compute. repeat split. Qed.

Example bootstrap_validation_fails :
  let P := steps initialProvider
             [Mount; Settle 0 Sample.stale; Settle 0 Sample.stale] in
  bootstrapCompleted P = true /\ isLoading (published P) = false
  /\ user (published P) = None /\ session (published P) = None
  /\ timerStatus (step P (Elapse 10000)) = Some timer_cleared.
Proof. vm_compute. repeat split. Qed.

Example bootstrap_succeeds :
  let P := steps initialProvider
             [Mount; Settle 0 Sample.registered; Settle 0 Sample.registered;
              Elapse 300; Settle 0 Sample.registered;
              Settle 0 Sample.registered] in
  bootstrapCompleted P = true /\ isLoading (published P) = false
  /\ participant (published P) = Some Sample.alice_row
  /\ timerStatus (step P (Elapse 10000)) = Some timer_cleared.
Proof. vm_compute. repeat split. Qed.

Example bootstrap_catches :
  let P := steps initialProvider [Mount; Settle 0 Sample.unreachable] in
  bootstrapCompleted P = true /\ isLoading (published P) = false
  /\ uncaught P = []
  /\ timerStatus (step P (Elapse 10000)) = Some timer_cleared.
Proof. vm_compute. repeat split. Qed.

(** A bootstrap slower than the window: the timer fires first, the
    bootstrap completes afterwards and loading stays false. *)
Example bootstrap_slow :
  let P := steps initialProvider
             [Mount; Settle 0 Sample.registered; Elapse 10000;
              Settle 0 Sample.registered; Settle 0 Sample.registered;
              Settle 0 Sample.registered] in
  bootstrapCompleted P = true /\ isLoading (published P) = false
  /\ timerStatus P = Some timer_fired
  /\ userStatus (published P) = Some approved.
Proof. vm_compute. repeat split. Qed.

(** The cleanup of the effect cancels the pending timer. *)
Example cleanup_cancels_timer :
  let P := steps initialProvider [Mount; Unmount; Elapse 10000] in
  timerStatus P = Some timer_cleared /\ subscribed P = false.
Proof. vm_compute. repeat split. Qed.

(** C7.  The effect cleaned up and run again while the bootstrap still
    waits for its first answer, as a development build under React's
    StrictMode does at every mount.  With a single run of the effect the
    timer does what its comment says: at 10000 ms it fires, logs the
    warning and publishes loading = false.  After the cleanup and the
    second run it does not: the cleanup has cancelled the timer, the latch
    makes the second run return before arming another, and for as long as
    the bootstrap stays incomplete, the 10000 ms and any time beyond, the
    timer does not fire: nothing is logged or published and loading is
    still true. *)
Theorem safety_timer_lost_on_remount :
  (let P := steps initialProvider [Mount; Elapse 10000] in
   bootstrapping P = true
   /\ timerStatus P = Some timer_fired
   /\ effects P
      = [setIsLoading false; console_warn "Auth initialization timed out"]
   /\ isLoading (published P) = false)
  /\ forall d : N,
       let P := steps initialProvider [Mount; Unmount; Mount; Elapse d] in
       bootstrapping P = true
       /\ bootstrapCompleted P = false
       /\ clock P = d
       /\ timerStatus P = Some timer_cleared
       /\ effects P = []
       /\ isLoading (published P) = true.
Proof.
  split.
  - vm_compute. repeat split.
  - intros d. vm_compute. repeat split.
Qed.


(** ** The exposed admin flag *)

(** C1.  In every state the provider reaches, the exposed isAdmin is
    isActualAdmin and not viewAsUser, so it is true only when
    isActualAdmin is; setting viewAsUser, to true or to anything, leaves
    isActualAdmin as it is, and setting it to true makes the exposed
    isAdmin false. *)
Theorem isAdmin_is_derived (evs : list event) :
  let P := steps initialProvider evs in
  let value := contextValue (published P) in
  ctx_isAdmin value = ctx_isActualAdmin value && negb (ctx_viewAsUser value)
  /\ (ctx_isAdmin value = true -> ctx_isActualAdmin value = true)
  /\ (ctx_isActualAdmin value = false -> ctx_isAdmin value = false)
  /\ (forall v,
        let value' := contextValue (published (step P (call_setViewAsUser v))) in
        ctx_isActualAdmin value' = ctx_isActualAdmin value
        /\ ctx_viewAsUser value' = v
        /\ ctx_isAdmin value' = ctx_isActualAdmin value && negb v)
  /\ ctx_isAdmin
       (contextValue (published (step P (call_setViewAsUser true)))) = false.
Proof.
  cbv zeta. simpl. unfold isAdmin. simpl.
  destruct (isActualAdmin (published (steps initialProvider evs))),
    (viewAsUser (published (steps initialProvider evs))); simpl;
    split5; try easy; now intros [].
Qed.

Example view_as_user_hides_admin :
  let P := steps initialProvider
             [Mount; Settle 0 Sample.granted; Settle 0 Sample.granted;
              Settle 0 Sample.granted; Settle 0 Sample.granted;
              Settle 0 Sample.granted; Settle 0 Sample.granted] in
  isAdmin (published P) = true
  /\ isAdmin (published (step P (call_setViewAsUser true))) = false
  /\ isActualAdmin (published (step P (call_setViewAsUser true))) = true.
Proof. vm_compute. repeat split. Qed.

(** ** The server-side client on sample environments *)

Example client_blank_url :
  SupabaseServer.createServerSupabaseClient Sample.client Sample.blank_url tt
  = Rejected (Error "Missing env: NEXT_PUBLIC_SUPABASE_URL. Set it in Vercel → Project → Settings → Environment Variables.").
Proof. reflexivity. Qed.

Example client_no_key :
  SupabaseServer.createServerSupabaseClient Sample.client Sample.no_key tt
  = Rejected (Error "Missing env: NEXT_PUBLIC_SUPABASE_ANON_KEY. Set it in Vercel → Project → Settings → Environment Variables.").
Proof. reflexivity. Qed.

Example client_configured :
  SupabaseServer.createServerSupabaseClient Sample.client Sample.configured tt
  = Resolved ([104; 58]%N, [107; 32]%N).
Proof. reflexivity. Qed.

(** * Further properties *)

(** ** The bootstrap without a validated user *)

Lemma validated_Some (b : backend) (s : Session) (u : User) :
  validated b = Some (s, u) ->
  b AuthGetSession = Resolved (Some s)
  /\ exists r, b AuthGetUser = Resolved r /\ gu_error r = None
               /\ gu_user r = Some u.
Proof.
  unfold validated.
  destruct (b AuthGetSession) as [[s0 | ] | e]; try discriminate.
  destruct (b AuthGetUser) as [r | e]; try discriminate.
  destruct (gu_error r) eqn:He; try discriminate.
  destruct (gu_user r) eqn:Hu; try discriminate.
  intros [= <- <-]. split; trivial. exists r. auto.
Qed.

Lemma run_initAuth_unauthenticated (b : backend) :
  validated b = None ->
  settles b initAuth = Resolved tt
  /\ (forall st, after b initAuth st = publish (setIsLoading false) st)
  /\ (forall q, In q (asked (trace b initAuth)) ->
        q = AuthGetSession \/ q = AuthGetUser).
Proof.
  unfold validated, settles, after, trace, initAuth. simpl.
  destruct (b AuthGetSession) as [[s | ] | e]; simpl.
  - destruct (b AuthGetUser) as [r | e]; simpl.
    + destruct (gu_error r), (gu_user r); try discriminate; simpl; intros _;
        (split3; [ reflexivity | reflexivity | ]);
        intros q [<- | [<- | []]]; auto.
    + intros _. split3; [ reflexivity | reflexivity | ].
      intros q [<- | [<- | []]]; auto.
  - intros _. split3; [ reflexivity | reflexivity | ].
    intros q [<- | []]; auto.
  - intros _. split3; [ reflexivity | reflexivity | ].
    intros q [<- | []]; auto.
Qed.

(** X1.  When the bootstrap obtains no validated user (no stored session,
    a session the provider rejects or returns no user for, or a rejected
    request), it completes normally, asks for nothing but the session and
    the user, and publishes nothing but loading = false: user, session,
    participant, admin flag and status stay as they were. *)
Theorem bootstrap_unauthenticated (b : backend) (st : AuthState) :
  validated b = None ->
  settles b initAuth = Resolved tt
  /\ after b initAuth st = publish (setIsLoading false) st
  /\ (forall c v, ~ In (SelectParticipant c v) (asked (trace b initAuth)))
  /\ (forall userId, ~ In (SelectAdminUser userId) (asked (trace b initAuth)))
  /\ backfills (trace b initAuth) = 0.
Proof.
  intros Hv. destruct (run_initAuth_unauthenticated b Hv) as (Hs & Ha & Hq).
  split5; trivial.
  - intros c v Hin. destruct (Hq _ Hin); discriminate.
  - intros userId Hin. destruct (Hq _ Hin); discriminate.
  - revert Hv. unfold validated, backfills, trace, initAuth. simpl.
    destruct (b AuthGetSession) as [[s | ] | e]; simpl; trivial.
    destruct (b AuthGetUser) as [r | e]; simpl; trivial.
    destruct (gu_error r), (gu_user r); try discriminate; reflexivity.
Qed.

Lemma bootstrap_unauthenticated_witness :
  after Scenario.user_and_error initAuth initialState
  = publish (setIsLoading false) initialState
  /\ after Scenario.no_network initAuth Sample.admin_state = Sample.admin_state.
Proof.
  split.
  - apply (bootstrap_unauthenticated Scenario.user_and_error initialState eq_refl).
  - apply (bootstrap_unauthenticated Scenario.no_network Sample.admin_state eq_refl).
Defined.

(** X2.  Whatever the backend does, the bootstrap ends with loading =
    false and leaves viewAsUser alone; it publishes a session and a user
    exactly when the stored session validates, and then the user is the
    one the validation returned, not the one the session carries. *)
Theorem bootstrap_publishes_validated_user (b : backend) (st : AuthState) :
  let st' := after b initAuth st in
  isLoading st' = false
  /\ viewAsUser st' = viewAsUser st
  /\ match validated b with
     | Some (s, u) => session st' = Some s /\ user st' = Some u
     | None => session st' = session st /\ user st' = user st
     end.
Proof.
  cbv zeta. destruct (validated b) as [[s u] | ] eqn:Hv.
  - destruct (validated_Some b s u Hv) as (Hs & r & Hr & He & Hu).
    rewrite (after_initAuth b s r u st Hs Hr He Hu).
    rewrite !publishAll_cons, !publishAll_app.
    destruct (found b u), (activeGrant b (u_id u)); simpl; auto.
  - destruct (run_initAuth_unauthenticated b Hv) as (_ & -> & _). simpl. auto.
Qed.

(** ** What the listener leaves alone *)

(** X3.  The listener never changes loading or viewAsUser; an event other
    than signed-in and signed-out, and a signed-in event that carries no
    user, does nothing at all: no request, nothing published. *)
Theorem listener_frame (b : backend) (e : AuthChangeEvent)
    (newSession : option Session) (st : AuthState) :
  let st' := after b (onAuthStateChange e newSession) st in
  isLoading st' = isLoading st
  /\ viewAsUser st' = viewAsUser st
  /\ (match e with
      | SIGNED_OUT => False
      | SIGNED_IN => event_user newSession = None
      | other_event _ => True
      end ->
      run b (onAuthStateChange e newSession) = ([], Resolved tt) /\ st' = st).
Proof.
  cbv zeta. destruct e as [ | | name].
  - destruct newSession as [s | ]; [ | now split3 ].
    destruct (s_user s) as [u | ] eqn:Hu.
    + rewrite (after_signed_in b s u st Hu), !publishAll_cons, publishAll_app.
      split3.
      * destruct (found b u), (activeGrant b (u_id u)); reflexivity.
      * destruct (found b u), (activeGrant b (u_id u)); reflexivity.
      * simpl. rewrite Hu. discriminate.
    + unfold after, trace, onAuthStateChange. rewrite Hu. now split3.
  - now split3.
  - now split3.
Qed.

Lemma listener_frame_witness :
  run Sample.registered
    (onAuthStateChange SIGNED_IN
       (Some {| s_access_token := "t2"; s_user := None |}))
  = ([], Resolved tt).
Proof.
  apply (listener_frame Sample.registered SIGNED_IN
           (Some {| s_access_token := "t2"; s_user := None |}) initialState).
  reflexivity.
Defined.

(** ** Refreshing without a user, and what a refresh leaves alone *)

Lemma total_refreshParticipant (u : option User) : total (refreshParticipant u).
Proof.
  destruct u as [u | ]; simpl; trivial.
  apply total_bind; [ apply total_fetchParticipant | ].
  intros [p | ]; exact I.
Qed.

(** X4.  [refreshParticipant] never throws and never changes user,
    session, loading or viewAsUser; with no user set it issues no request
    and changes nothing. *)
Theorem refreshParticipant_untouched (b : backend) (u : option User)
    (st : AuthState) :
  let st' := after b (refreshParticipant u) st in
  settles b (refreshParticipant u) = Resolved tt
  /\ user st' = user st /\ session st' = session st
  /\ isLoading st' = isLoading st /\ viewAsUser st' = viewAsUser st
  /\ (u = None -> run b (refreshParticipant u) = ([], Resolved tt) /\ st' = st).
Proof.
  cbv zeta. destruct u as [u | ].
  - unfold settles, after, trace. rewrite run_refreshParticipant. cbn [fst snd].
    rewrite done_app, publishAll_app, fetchParticipant_publishes_nothing.
    destruct (found b u); simpl; repeat split; discriminate.
  - repeat split.
Qed.

(** ** The provider: what events leave alone *)

Lemma publish_viewAsUser (a : action) (st : AuthState) :
  viewAsUser (publish a st) = viewAsUser st.
Proof. now destruct a. Qed.

Lemma advance_viewAsUser (o : origin) (p : prog unit) (P : Provider) :
  viewAsUser (published (advance o p P)) = viewAsUser (published P).
Proof.
  revert P. induction p as [r | e | a k IH | q k IH]; simpl; intros P; trivial.
  rewrite IH. simpl. apply publish_viewAsUser.
Qed.

Lemma step_viewAsUser (P : Provider) (ev : event) :
  is_setViewAsUser ev = false ->
  viewAsUser (published (step P ev)) = viewAsUser (published P).
Proof.
  destruct ev as [ | | d | i b | e s | | | v | em pw | og em | hu ]; unfold step;
    intros H; try discriminate; try apply advance_viewAsUser.
  - unfold mount. now destruct (authInitialized P).
  - unfold unmount. now destruct (subscribed P).
  - unfold elapse. destruct (safetyTimeout P) as [[dl []] | ]; trivial.
    now destruct (dl <=? clock P + d)%N.
  - unfold settle. destruct (nth_error (suspended P) i); trivial.
    now rewrite advance_viewAsUser.
  - destruct (subscribed P); trivial. apply advance_viewAsUser.
Qed.

(** X5.  viewAsUser is changed by [setViewAsUser] and by nothing else:
    whatever the state of the provider, no other event changes it, so
    the override survives sign-out and the next sign-in. *)
Theorem viewAsUser_only_by_setter (P : Provider) (evs : list event) :
  forallb (fun ev => negb (is_setViewAsUser ev)) evs = true ->
  viewAsUser (published (steps P evs)) = viewAsUser (published P).
Proof.
  revert P. induction evs as [ | ev evs IH]; simpl; intros P H; trivial.
  apply andb_true_iff in H. destruct H as [Hev Hevs].
  rewrite (IH _ Hevs). apply step_viewAsUser. now apply negb_true_iff.
Qed.

Lemma viewAsUser_only_by_setter_witness :
  let P := steps initialProvider [Mount; call_setViewAsUser true] in
  viewAsUser
    (published
       (steps P [call_signOut; Settle 1 Sample.registered;
                 AuthStateChange SIGNED_OUT None;
                 AuthStateChange SIGNED_IN (Some Sample.alice_session)]))
  = true.
Proof.
  exact (viewAsUser_only_by_setter
           (steps initialProvider [Mount; call_setViewAsUser true])
           [call_signOut; Settle 1 Sample.registered;
            AuthStateChange SIGNED_OUT None;
            AuthStateChange SIGNED_IN (Some Sample.alice_session)] eq_refl).
Defined.

(** ** The one-shot latch and the cleanup *)

Lemma step_authInitialized (P : Provider) (ev : event) :
  authInitialized P = true -> authInitialized (step P ev) = true.
Proof.
  intros Hi.
  destruct ev as [ | | d | i b | e s | | | v | em pw | og em | hu ]; unfold step;
    try (now destruct (advance_frame from_signOut signOut P) as (-> & _));
    try (match goal with
         | |- authInitialized (advance ?o ?p P) = true =>
             now destruct (advance_frame o p P) as (-> & _)
         end).
  - unfold mount. now rewrite Hi.
  - unfold unmount. now destruct (subscribed P).
  - unfold elapse. destruct (safetyTimeout P) as [[dl []] | ]; trivial.
    now destruct (dl <=? clock P + d)%N.
  - unfold settle. destruct (nth_error (suspended P) i) as [t | ]; trivial.
    match goal with
    | |- authInitialized (advance ?o ?p ?Q) = true =>
        now destruct (advance_frame o p Q) as (-> & _)
    end.
  - destruct (subscribed P); trivial.
    match goal with
    | |- authInitialized (advance ?o ?p ?Q) = true =>
        now destruct (advance_frame o p Q) as (-> & _)
    end.
  - exact Hi.
Qed.

Lemma steps_authInitialized (P : Provider) (evs : list event) :
  authInitialized P = true -> authInitialized (steps P evs) = true.
Proof.
  revert P. induction evs as [ | ev evs IH]; simpl; intros P H; trivial.
  apply IH. now apply step_authInitialized.
Qed.

Lemma steps_app (P : Provider) (evs1 evs2 : list event) :
  steps P (evs1 ++ evs2) = steps (steps P evs1) evs2.
Proof. apply fold_left_app. Qed.

Lemma mount_authInitialized (P : Provider) : authInitialized (mount P) = true.
Proof.
  unfold mount. destruct (authInitialized P) eqn:Hi; trivial.
Qed.

(** X6.  The effect body runs once: in every run of the provider, after
    the first mount the latch stays set, a further mount changes nothing
    at all (no second timer, no second bootstrap, no second
    subscription), and at most one bootstrap is ever in flight. *)
Theorem mount_runs_once (evs1 evs2 : list event) :
  let P := steps initialProvider (evs1 ++ Mount :: evs2) in
  authInitialized P = true
  /\ step P Mount = P
  /\ init_count (suspended P) <= 1.
Proof.
  cbv zeta.
  assert (authInitialized (steps initialProvider (evs1 ++ Mount :: evs2)) = true)
    as Hi.
  { rewrite steps_app. simpl. apply steps_authInitialized,  mount_authInitialized. }
  split3; trivial.
  - unfold step, mount. now rewrite Hi.
  - apply (steps_invariant initialProvider _ initial_invariant).
Qed.

Lemma step_unsubscribed (P : Provider) (ev : event) :
  authInitialized P = true -> subscribed P = false ->
  subscribed (step P ev) = false.
Proof.
  intros Hi Hs.
  destruct ev as [ | | d | i b | e s | | | v | em pw | og em | hu ]; unfold step;
    try (match goal with
         | |- subscribed (advance ?o ?p P) = false =>
             now destruct (advance_frame o p P) as (_ & -> & _)
         end).
  - unfold mount. now rewrite Hi.
  - unfold unmount. now rewrite Hs.
  - unfold elapse. destruct (safetyTimeout P) as [[dl []] | ]; trivial.
    now destruct (dl <=? clock P + d)%N.
  - unfold settle. destruct (nth_error (suspended P) i) as [t | ]; trivial.
    match goal with
    | |- subscribed (advance ?o ?p ?Q) = false =>
        now destruct (advance_frame o p Q) as (_ & -> & _)
    end.
  - now rewrite Hs.
  - exact Hs.
Qed.

(** X7.  The cleanup is final.  Once the effect has run and its cleanup
    has unsubscribed, no event subscribes the provider again, a later
    mount included, and from then on every signed-in or signed-out event
    is dropped: it changes nothing. *)
Theorem cleanup_is_final (P : Provider) (evs : list event) :
  authInitialized P = true -> subscribed P = false ->
  subscribed (steps P evs) = false
  /\ forall e newSession,
       step (steps P evs) (AuthStateChange e newSession) = steps P evs.
Proof.
  intros Hi Hs.
  assert (authInitialized (steps P evs) = true /\ subscribed (steps P evs) = false)
    as [Hi' Hs'].
  { revert P Hi Hs. induction evs as [ | ev evs IH]; simpl; intros P Hi Hs; auto.
    apply IH; [ now apply step_authInitialized | now apply step_unsubscribed ]. }
  split; trivial. intros e ns. unfold step. now rewrite Hs'.
Qed.

Lemma cleanup_is_final_witness :
  let P := steps initialProvider [Mount; Unmount; Mount] in
  step P (AuthStateChange SIGNED_IN (Some Sample.alice_session)) = P.
Proof.
  exact (proj2 (cleanup_is_final (steps initialProvider [Mount; Unmount])
                  [Mount] eq_refl eq_refl)
           SIGNED_IN (Some Sample.alice_session)).
Defined.

(** ** Loading with no timer left *)

Lemma never_setIsLoading_listener (e : AuthChangeEvent) (s : option Session) :
  never is_setIsLoading (onAuthStateChange e s).
Proof. unfold onAuthStateChange, fetchParticipant, checkAdminUser. crush_prog. Qed.

Lemma never_setIsLoading_signOut : never is_setIsLoading signOut.
Proof. unfold signOut. crush_prog. Qed.

Lemma never_setIsLoading_refreshParticipant (u : option User) :
  never is_setIsLoading (refreshParticipant u).
Proof. unfold refreshParticipant, fetchParticipant. crush_prog. Qed.

Lemma never_setIsLoading_signIn (a b0 : string) :
  never is_setIsLoading (signInWithEmail a b0 ;; Ret tt)
  /\ never is_setIsLoading (signInWithMagicLink a b0 ;; Ret tt).
Proof. unfold signInWithEmail, signInWithMagicLink. crush_prog. Qed.

Lemma publish_isLoading (a : action) (st : AuthState) :
  is_setIsLoading a = false -> isLoading (publish a st) = isLoading st.
Proof. destruct a; simpl; intros; try discriminate; reflexivity. Qed.

Lemma advance_isLoading (o : origin) (p : prog unit) (P : Provider) :
  never is_setIsLoading p ->
  isLoading (published (advance o p P)) = isLoading (published P).
Proof.
  revert P. induction p as [r | e | a k IH | q k IH]; simpl; intros P H; trivial.
  destruct H as [Ha Hk]. rewrite (IH _ Hk). simpl. now apply publish_isLoading.
Qed.

Lemma step_still_loading (P : Provider) (ev : event) :
  authInitialized P = true -> timer_settled P -> is_Settle ev = false ->
  timer_settled (step P ev)
  /\ isLoading (published (step P ev)) = isLoading (published P).
Proof.
  intros Hi Ht Hev.
  assert (forall o p, never is_setIsLoading p ->
            timer_settled (advance o p P)
            /\ isLoading (published (advance o p P)) = isLoading (published P))
    as Hadv.
  { intros o p Hp. split; [ | now apply advance_isLoading ].
    unfold timer_settled. now rewrite advance_timer_settled. }
  destruct ev as [ | | d | i b | e s | | | v | em pw | og em | hu ]; unfold step;
    try discriminate.
  - unfold mount. rewrite Hi. now split.
  - unfold unmount. destruct (subscribed P); [ | now split ].
    split; trivial. unfold timer_settled. simpl. now rewrite cancel_settled.
  - unfold elapse.
    destruct (safetyTimeout P) as [[dl []] | ] eqn:Et;
      [ now destruct (Ht _ Et) | | | ];
      (split; [ | reflexivity ]); unfold timer_settled; simpl;
      intros t0 Ht0; inversion Ht0; discriminate.
  - destruct (subscribed P); [ | now split ].
    apply Hadv, never_setIsLoading_listener.
  - apply Hadv, never_setIsLoading_signOut.
  - apply Hadv, never_setIsLoading_refreshParticipant.
  - now split.
  - apply Hadv, (never_setIsLoading_signIn em pw).
  - apply Hadv, (never_setIsLoading_signIn em og).
  - apply Hadv, never_setIsLoading_refreshParticipant.
Qed.

(** X8.  With the latch set and no timer pending, loading changes only
    when a request settles: time passing, mounts, the cleanup, auth
    events and the public operations leave it as it is.  So after the
    cleanup has cancelled the timer, a bootstrap whose request never
    settles leaves loading true for good. *)
Theorem loading_waits_for_requests (P : Provider) (evs : list event) :
  authInitialized P = true ->
  timerStatus P <> Some timer_pending ->
  forallb (fun ev => negb (is_Settle ev)) evs = true ->
  isLoading (published (steps P evs)) = isLoading (published P).
Proof.
  intros Hi Ht.
  assert (timer_settled P) as Hts.
  { intros t Et Hp. apply Ht. unfold timerStatus. rewrite Et. simpl. now f_equal. }
  clear Ht. revert P Hi Hts.
  induction evs as [ | ev evs IH]; simpl; intros P Hi Hts H; trivial.
  apply andb_true_iff in H. destruct H as [Hev Hevs].
  apply negb_true_iff in Hev.
  destruct (step_still_loading P ev Hi Hts Hev) as [Hts' Hl].
  rewrite IH; trivial. now apply step_authInitialized.
Qed.

Lemma loading_waits_for_requests_witness :
  isLoading
    (published
       (steps (steps initialProvider [Mount; Unmount])
          [Elapse 60000; Mount; call_refreshParticipant;
           AuthStateChange SIGNED_IN (Some Sample.alice_session)]))
  = true.
Proof.
  apply (loading_waits_for_requests (steps initialProvider [Mount; Unmount])
           [Elapse 60000; Mount; call_refreshParticipant;
            AuthStateChange SIGNED_IN (Some Sample.alice_session)]
           eq_refl).
  - discriminate.
  - reflexivity.
Defined.

(** ** Rejections in the provider *)

Lemma advance_total (o : origin) (p : prog unit) (P : Provider) :
  total p -> tasks_total (suspended P) ->
  uncaught (advance o p P) = uncaught P
  /\ tasks_total (suspended (advance o p P)).
Proof.
  revert P. induction p as [r | e | a k IH | q k IH]; simpl; intros P Hp Ht.
  - now split.
  - contradiction.
  - apply (IH (perform a P)); trivial.
  - split; trivial. intros t Hin out. apply in_app_iff in Hin.
    destruct Hin as [Hin | [<- | []]]; [ now apply Ht | apply Hp ].
Qed.

Lemma step_total (P : Provider) (ev : event) :
  may_reject ev = false -> tasks_total (suspended P) ->
  uncaught (step P ev) = uncaught P
  /\ tasks_total (suspended (step P ev)).
Proof.
  intros Hev Ht.
  destruct ev as [ | | d | i b | e s | | | v | em pw | og em | hu ]; unfold step;
    try discriminate.
  - unfold mount. destruct (authInitialized P); [ now split | ].
    cbn [uncaught suspended].
    match goal with
    | |- context [advance ?o ?p ?Q] =>
        apply (advance_total o p Q total_initAuth Ht)
    end.
  - unfold unmount. now destruct (subscribed P).
  - unfold elapse. destruct (safetyTimeout P) as [[dl []] | ]; try now split.
    destruct (dl <=? clock P + d)%N; now split.
  - unfold settle. destruct (nth_error (suspended P) i) as [t | ] eqn:Hn;
      [ | now split ].
    match goal with
    | |- context [advance ?o ?p ?Q] => apply (advance_total o p Q)
    end.
    + apply Ht. now apply nth_error_In in Hn.
    + intros t' Hin. apply Ht. now apply In_remove_nth in Hin.
  - destruct (subscribed P); [ | now split ].
    apply advance_total; trivial. apply total_onAuthStateChange.
  - apply advance_total; trivial. apply total_refreshParticipant.
  - now split.
  - apply advance_total; trivial. apply total_refreshParticipant.
Qed.

(** X9.  In the provider, under any interleaving of mounts, cleanups,
    time, settling requests (resolved or rejected), auth events,
    [refreshParticipant] and [setViewAsUser], nothing is ever thrown to a
    caller: the bootstrap, the listener, the timer callback and the
    refresh absorb every rejection.  Only [signOut] and the two sign-in
    calls, which await the SDK with no handler, can reject. *)
Theorem resolution_rejections_stay_inside (evs : list event) :
  forallb (fun ev => negb (may_reject ev)) evs = true ->
  uncaught (steps initialProvider evs) = [].
Proof.
  assert (forall P, tasks_total (suspended P) ->
            forallb (fun ev => negb (may_reject ev)) evs = true ->
            uncaught (steps P evs) = uncaught P) as H.
  { induction evs as [ | ev evs IH]; simpl; intros P Ht H; trivial.
    apply andb_true_iff in H. destruct H as [Hev Hevs].
    apply negb_true_iff in Hev.
    destruct (step_total P ev Hev Ht) as [Hu Ht'].
    rewrite (IH _ Ht' Hevs). exact Hu. }
  intros Hevs. apply (H initialProvider); trivial. intros t [].
Qed.

Lemma resolution_rejections_stay_inside_witness :
  uncaught
    (steps initialProvider
       [Mount; AuthStateChange SIGNED_IN (Some Sample.alice_session);
        Settle 0 Sample.unreachable; Settle 0 Sample.unreachable;
        call_refreshParticipant; Settle 0 Sample.unreachable;
        Settle 0 Sample.unreachable]) = [].
Proof.
  exact (resolution_rejections_stay_inside
           [Mount; AuthStateChange SIGNED_IN (Some Sample.alice_session);
            Settle 0 Sample.unreachable; Settle 0 Sample.unreachable;
            call_refreshParticipant; Settle 0 Sample.unreachable;
            Settle 0 Sample.unreachable] eq_refl).
Defined.

(** ** User and session go together *)

Ltac crush_keeps :=
  repeat (simpl;
          match goal with
          | |- _ /\ _ => split
          | |- forall _, _ => intro
          | |- context [match ?x with _ => _ end] => destruct x
          end);
  unfold user_with_session in *; simpl in *;
  try tauto; try (split; discriminate).

Lemma keeps_initAuth (st : AuthState) :
  user_with_session st -> keeps user_with_session initAuth st.
Proof.
  intros H. unfold initAuth, fetchParticipant, checkAdminUser. crush_keeps.
Qed.

Lemma keeps_onAuthStateChange (e : AuthChangeEvent) (s : option Session)
    (st : AuthState) :
  user_with_session st -> keeps user_with_session (onAuthStateChange e s) st.
Proof.
  intros H. unfold onAuthStateChange, fetchParticipant, checkAdminUser.
  crush_keeps.
Qed.

Lemma keeps_signOut (st : AuthState) :
  user_with_session st -> keeps user_with_session signOut st.
Proof. intros H. unfold signOut. crush_keeps. Qed.

Lemma keeps_refreshParticipant (u : option User) (st : AuthState) :
  user_with_session st -> keeps user_with_session (refreshParticipant u) st.
Proof. intros H. unfold refreshParticipant, fetchParticipant. crush_keeps. Qed.

Lemma keeps_signIn (a b0 : string) (st : AuthState) :
  user_with_session st ->
  keeps user_with_session (signInWithEmail a b0 ;; Ret tt) st
  /\ keeps user_with_session (signInWithMagicLink a b0 ;; Ret tt) st.
Proof. intros H. unfold signInWithEmail, signInWithMagicLink. crush_keeps. Qed.

Lemma advance_keeps (I : AuthState -> Prop) (o : origin) (p : prog unit)
    (P : Provider) :
  keeps I p (published P) -> tasks_keep I (suspended P) ->
  I (published (advance o p P)) /\ tasks_keep I (suspended (advance o p P)).
Proof.
  revert P. induction p as [r | e | a k IH | q k IH]; simpl; intros P Hp Ht.
  - now split.
  - now split.
  - apply (IH (perform a P)); trivial.
  - destruct Hp as [HI Hk]. split; trivial.
    intros t Hin out st HIst. apply in_app_iff in Hin.
    destruct Hin as [Hin | [<- | []]]; [ now apply Ht | now apply Hk ].
Qed.

Lemma step_user_with_session (P : Provider) (ev : event) :
  user_with_session (published P) ->
  tasks_keep user_with_session (suspended P) ->
  user_with_session (published (step P ev))
  /\ tasks_keep user_with_session (suspended (step P ev)).
Proof.
  intros HI Ht.
  destruct ev as [ | | d | i b | e s | | | v | em pw | og em | hu ]; unfold step.
  - unfold mount. destruct (authInitialized P); [ now split | ].
    cbn [published suspended].
    match goal with
    | |- context [advance ?o ?p ?Q] => apply (advance_keeps _ o p Q)
    end; trivial.
    now apply keeps_initAuth.
  - unfold unmount. now destruct (subscribed P).
  - unfold elapse. destruct (safetyTimeout P) as [[dl []] | ]; try now split.
    destruct (dl <=? clock P + d)%N; now split.
  - unfold settle. destruct (nth_error (suspended P) i) as [t | ] eqn:Hn;
      [ | now split ].
    match goal with
    | |- context [advance ?o ?p ?Q] => apply (advance_keeps _ o p Q)
    end.
    + apply Ht; trivial. now apply nth_error_In in Hn.
    + intros t' Hin. apply Ht. now apply In_remove_nth in Hin.
  - destruct (subscribed P); [ | now split ].
    apply advance_keeps; trivial. now apply keeps_onAuthStateChange.
  - apply advance_keeps; trivial. now apply keeps_signOut.
  - apply advance_keeps; trivial. now apply keeps_refreshParticipant.
  - now split.
  - apply advance_keeps; trivial. now apply keeps_signIn.
  - apply advance_keeps; trivial. now apply keeps_signIn.
  - apply advance_keeps; trivial. now apply keeps_refreshParticipant.
Qed.

(** X10.  In every state the provider reaches, under any interleaving of
    events and however the requests settle, a user is published exactly
    when a session is: the two are set together and cleared together. *)
Theorem user_iff_session (evs : list event) :
  let st := published (steps initialProvider evs) in
  user st = None <-> session st = None.
Proof.
  cbv zeta.
  assert (forall P, user_with_session (published P) ->
            tasks_keep user_with_session (suspended P) ->
            user_with_session (published (steps P evs))) as H.
  { induction evs as [ | ev evs IH]; simpl; intros P HI Ht; trivial.
    destruct (step_user_with_session P ev HI Ht) as [HI' Ht'].
    now apply IH. }
  apply (H initialProvider).
  - now split.
  - intros t [].
Qed.

(** ** A refresh in flight across a sign-out *)

Lemma settle_parked (t : Suspended) (b : backend) (P : Provider) :
  settle (List.length (suspended P)) b (park t P)
  = advance (owner t) (resume t (b (waiting t))) P.
Proof.
  destruct P as [pub ini tm sub clk sus eff unc]. unfold settle, park.
  cbn [suspended published authInitialized safetyTimeout subscribed clock
       effects uncaught].
  now rewrite nth_error_snoc, remove_nth_snoc.
Qed.

Lemma length_suspended_park (t : Suspended) (P : Provider) :
  List.length (suspended (park t P)) = S (List.length (suspended P)).
Proof. unfold park. cbn [suspended]. rewrite length_app. simpl. lia. Qed.

Lemma advance_park (o : origin) (p : prog unit) (t : Suspended) (P : Provider) :
  synchronous p = true ->
  advance o p (park t P) = park t (advance o p P).
Proof.
  revert P. induction p as [r | e | a k IH | q k IH]; simpl; intros P H;
    try reflexivity; try discriminate.
  rewrite <- (IH _ H). reflexivity.
Qed.

Lemma refreshParticipant_head (u : User) (email : string) :
  truthy (u_email u) = Some email ->
  exists k,
    refreshParticipant (Some u) = Await (SelectParticipant col_email email) k
    /\ forall p,
         k (Resolved (Some p))
         = Do (setParticipant (Some p))
             (Do (setUserStatus (Some approved))
                (Do (setIsActualAdmin (is_admin_or_false p)) (Ret tt))).
Proof.
  intros He. unfold refreshParticipant, fetchParticipant. rewrite He.
  eexists. split; reflexivity.
Qed.

Lemma signOut_head :
  exists k,
    signOut = Await AuthSignOut k
    /\ forall error,
         k (Resolved error)
         = Do (setUser None)
             (Do (setSession None)
                (Do (setParticipant None)
                   (Do (setIsActualAdmin false)
                      (Do (setUserStatus None) (Ret tt))))).
Proof. eexists. split; reflexivity. Qed.

(** X11.  [refreshParticipant] does not look at the state again when its
    lookup returns.  If the user signs out while a refresh is in flight
    and the sign-out settles first, the refresh then publishes the
    participant it found, the status 'approved' and the participant's
    admin flag over the cleared state: user and session are null, the
    participant and the admin flag are set again. *)
Theorem refresh_outlives_signOut (P : Provider) (u : User) (email : string)
    (b : backend) (p : Participant) (error : option AuthError) :
  user (published P) = Some u ->
  truthy (u_email u) = Some email ->
  b (SelectParticipant col_email email) = Resolved (Some p) ->
  b AuthSignOut = Resolved error ->
  let n := List.length (suspended P) in
  let P' := steps P [call_refreshParticipant; call_signOut;
                     Settle (S n) b; Settle n b] in
  published P'
  = publishAll [setParticipant (Some p); setUserStatus (Some approved);
                setIsActualAdmin (is_admin_or_false p)]
      (cleared (published P))
  /\ user (published P') = None /\ session (published P') = None
  /\ participant (published P') = Some p
  /\ isActualAdmin (published P') = is_admin_or_false p.
Proof.
  intros Hu He Hp Hs. cbv zeta.
  destruct (refreshParticipant_head u email He) as (k1 & E1 & Hk1).
  destruct signOut_head as (k2 & E2 & Hk2).
  assert (published
            (steps P [call_refreshParticipant; call_signOut;
                      Settle (S (List.length (suspended P))) b;
                      Settle (List.length (suspended P)) b])
          = publishAll [setParticipant (Some p); setUserStatus (Some approved);
                        setIsActualAdmin (is_admin_or_false p)]
              (cleared (published P))) as H.
  { unfold steps. cbn [fold_left step]. rewrite Hu, E1, E2.
    cbn [advance].
    set (t1 := {| owner := from_refreshParticipant;
                  waiting := SelectParticipant col_email email;
                  resume := k1 |}).
    set (t2 := {| owner := from_signOut; waiting := AuthSignOut;
                  resume := k2 |}).
    rewrite <- (length_suspended_park t1 P), (settle_parked t2 b (park t1 P)).
    cbn [owner resume waiting t2]. rewrite Hs, Hk2.
    rewrite advance_park by reflexivity.
    match goal with
    | |- context [park t1 ?Q] =>
        replace (List.length (suspended P)) with (List.length (suspended Q))
          by reflexivity;
        rewrite (settle_parked t1 b Q)
    end.
    cbn [owner resume waiting t1]. rewrite Hp, Hk1. reflexivity. }
  rewrite H. now split5.
Qed.

Lemma refresh_outlives_signOut_witness :
  let P := steps initialProvider
             [Mount; Settle 0 Scenario.administrator;
              Settle 0 Scenario.administrator; Settle 0 Scenario.administrator;
              Settle 0 Scenario.administrator] in
  let P' := steps P [call_refreshParticipant; call_signOut;
                     Settle 1 Scenario.administrator;
                     Settle 0 Scenario.administrator] in
  user (published P') = None /\ isAdmin (published P') = true.
Proof.
  destruct (refresh_outlives_signOut
              (steps initialProvider
                 [Mount; Settle 0 Scenario.administrator;
                  Settle 0 Scenario.administrator;
                  Settle 0 Scenario.administrator;
                  Settle 0 Scenario.administrator])
              Sample.alice "a@x.com" Scenario.administrator
              Scenario.admin_row (Some {| ae_message := "Failed to fetch" |})
              eq_refl eq_refl eq_refl eq_refl) as (H & Hu & _).
  split; [ exact Hu | ].
  exact (eq_trans (f_equal isAdmin H) eq_refl).
Defined.

(** After a sign-out the [refreshParticipant] of the latest render, whose
    [user] is null, does nothing; one kept from the render in which the
    administrator was signed in still looks that user up and publishes
    the participant over the cleared state. *)
Example held_refresh_after_signOut :
  let P := steps initialProvider
             [Mount; Settle 0 Scenario.administrator;
              Settle 0 Scenario.administrator; Settle 0 Scenario.administrator;
              Settle 0 Scenario.administrator;
              call_signOut; Settle 0 Scenario.administrator] in
  let P' := steps P [call_refreshParticipant_held (Some Sample.alice);
                     Settle 0 Scenario.administrator] in
  published P = cleared Sample.admin_state
  /\ published (step P call_refreshParticipant) = published P
  /\ List.length (suspended (step P call_refreshParticipant)) = 0
  /\ user (published P') = None /\ session (published P') = None
  /\ participant (published P') = Some Scenario.admin_row
  /\ isActualAdmin (published P') = true.
Proof. vm_compute. repeat split. Qed.


(** ** The sign-in operations *)

(** X12.  The two sign-in operations publish nothing themselves: each
    issues its one request (the magic link with the redirect target
    origin + "/auth/callback") and hands back how that request settles,
    error or rejection, as it is; in the provider, the call and the
    settling of its request leave the published state as it was, so a
    signed-in user appears only through the signed-in event. *)
Theorem signIn_publishes_nothing (b : backend) (origin email password : string)
    (P : Provider) :
  run b (signInWithEmail email password)
  = ([Asked (AuthSignInWithPassword email password)],
     b (AuthSignInWithPassword email password))
  /\ run b (signInWithMagicLink origin email)
     = ([Asked (AuthSignInWithOtp email (origin ++ "/auth/callback")%string)],
        b (AuthSignInWithOtp email (origin ++ "/auth/callback")%string))
  /\ published
       (steps P [call_signInWithEmail email password;
                 Settle (List.length (suspended P)) b])
     = published P
  /\ published
       (steps P [call_signInWithMagicLink origin email;
                 Settle (List.length (suspended P)) b])
     = published P.
Proof.
  split; [ | split; [ | split ] ].
  - unfold signInWithEmail. simpl.
    now destruct (b (AuthSignInWithPassword email password)).
  - unfold signInWithMagicLink. simpl.
    now destruct (b (AuthSignInWithOtp email (origin ++ "/auth/callback")%string)).
  - unfold steps. cbn [fold_left step]. unfold signInWithEmail.
    cbn [bind await advance]. rewrite settle_parked. cbn [owner resume waiting].
    now destruct (b (AuthSignInWithPassword email password)).
  - unfold steps. cbn [fold_left step]. unfold signInWithMagicLink.
    cbn [bind await advance]. rewrite settle_parked. cbn [owner resume waiting].
    now destruct (b (AuthSignInWithOtp email (origin ++ "/auth/callback")%string)).
Qed.

(** ** The dashboard page *)

Lemma first_refusal_In {Activity : Type} (d : DashboardPage.Database Activity)
    (order : list DashboardPage.query) (e : DashboardPage.thrown) :
  DashboardPage.first_refusal d order = Some e ->
  exists q, In q order /\ DashboardPage.refusal_of d q = Some e.
Proof.
  induction order as [ | q order IH]; simpl; [ discriminate | ].
  destruct (DashboardPage.refusal_of d q) as [e0 | ] eqn:Hq.
  - intros [= <-]. eauto.
  - intros H. destruct (IH H) as (q' & Hin & Hq'). eauto.
Qed.

Lemma first_refusal_None {Activity : Type} (d : DashboardPage.Database Activity)
    (order : list DashboardPage.query) :
  DashboardPage.first_refusal d order = None ->
  forall q, In q order -> DashboardPage.refusal_of d q = None.
Proof.
  induction order as [ | q order IH]; simpl; [ easy | ].
  destruct (DashboardPage.refusal_of d q) as [e0 | ] eqn:Hq; [ discriminate | ].
  intros H q' [<- | Hin]; auto.
Qed.

(** [Promise.all] rejects exactly when one of the three queries does, and
    then with the rejection of one of them. *)
Lemma promise_all_spec {Activity : Type} (d : DashboardPage.Database Activity)
    (order : list DashboardPage.query) :
  match DashboardPage.promise_all d order with
  | DashboardPage.Refused e =>
      exists q, DashboardPage.refusal_of d q = Some e
  | DashboardPage.Fulfilled (p, s, a) =>
      DashboardPage.participantsResult d = DashboardPage.Fulfilled p
      /\ DashboardPage.submissionsResult d = DashboardPage.Fulfilled s
      /\ DashboardPage.activityResult d = DashboardPage.Fulfilled a
  end.
Proof.
  unfold DashboardPage.promise_all.
  destruct (DashboardPage.first_refusal d _) as [e | ] eqn:H.
  - destruct (first_refusal_In d _ e H) as (q & _ & Hq). eauto.
  - pose proof (first_refusal_None d _ H) as Hn.
    assert (forall q, In q [DashboardPage.count_participants;
                            DashboardPage.count_submissions;
                            DashboardPage.recent_activity] ->
                      DashboardPage.refusal_of d q = None) as Hd.
    { intros q Hq. apply Hn, in_or_app. now right. }
    pose proof (Hd DashboardPage.count_participants) as H1.
    pose proof (Hd DashboardPage.count_submissions) as H2.
    pose proof (Hd DashboardPage.recent_activity) as H3.
    simpl in H1, H2, H3.
    destruct (DashboardPage.participantsResult d) as [p | e1];
      [ | simpl in H1; discriminate H1; auto ].
    destruct (DashboardPage.submissionsResult d) as [s | e2];
      [ | simpl in H2; discriminate H2; auto ].
    destruct (DashboardPage.activityResult d) as [a | e3];
      [ | simpl in H3; discriminate H3; auto ].
    now split3.
Qed.

(** X13.  When NEXT_PUBLIC_SUPABASE_URL or NEXT_PUBLIC_SUPABASE_ANON_KEY
    is unset or blank, the dashboard sends no query and renders the
    'Configuration needed' card with the message of the thrown error,
    which names a missing variable; whatever value the construction of
    the client throws, the page renders that card instead of throwing. *)
Theorem dashboard_configuration_needed {Client Activity CookieStore : Type}
    (percent : N -> N -> N)
    (createServerClient :
       SupabaseServer.jsstring -> SupabaseServer.jsstring -> CookieStore -> Client)
    (env : SupabaseServer.environment) (cookieStore : CookieStore)
    (db : Client -> DashboardPage.Database Activity)
    (order : list DashboardPage.query) :
  (forall e,
     DashboardPage.Dashboard percent (DashboardPage.Refused e) db order
     = ([], DashboardPage.ConfigurationNeeded
              (DashboardPage.message_or e "Supabase is not configured.")))
  /\ (SupabaseServer.unset_or_blank env "NEXT_PUBLIC_SUPABASE_URL"
      \/ SupabaseServer.unset_or_blank env "NEXT_PUBLIC_SUPABASE_ANON_KEY" ->
      exists name,
        (name = "NEXT_PUBLIC_SUPABASE_URL"
         \/ name = "NEXT_PUBLIC_SUPABASE_ANON_KEY")
        /\ SupabaseServer.unset_or_blank env name
        /\ DashboardPage.Dashboard percent
             (DashboardPage.caught
                (SupabaseServer.createServerSupabaseClient createServerClient
                   env cookieStore)) db order
           = ([], DashboardPage.ConfigurationNeeded
                    (SupabaseServer.missing_env_message name))).
Proof.
  split; [ reflexivity | ].
  intros Hm. unfold SupabaseServer.createServerSupabaseClient.
  destruct (unset_or_blank_dec env "NEXT_PUBLIC_SUPABASE_URL") as [Hu | Hu].
  - exists "NEXT_PUBLIC_SUPABASE_URL". split3; auto.
    now rewrite (getRequiredEnv_missing env _ Hu).
  - destruct Hm as [Hm | Hm]; [ contradiction | ].
    exists "NEXT_PUBLIC_SUPABASE_ANON_KEY". split3; auto.
    destruct (getRequiredEnv_present env _ Hu) as (u & _ & ->).
    now rewrite (getRequiredEnv_missing env _ Hm).
Qed.

Lemma dashboard_configuration_needed_witness :
  exists name,
    DashboardPage.Dashboard (fun _ _ => 0%N)
      (DashboardPage.caught
         (SupabaseServer.createServerSupabaseClient Sample.client
            Sample.no_key tt))
      (fun _ => Scenario.fresh) []
    = ([], DashboardPage.ConfigurationNeeded
             (SupabaseServer.missing_env_message name)).
Proof.
  destruct (proj2 (dashboard_configuration_needed (fun _ _ => 0%N)
                     Sample.client Sample.no_key tt
                     (fun _ => Scenario.fresh) [])
              (or_intror I)) as (name & _ & _ & H).
  now exists name.
Defined.

Lemma promise_all_fulfilled {Activity : Type}
    (d : DashboardPage.Database Activity) (order : list DashboardPage.query) :
  (forall q, In q three_queries -> DashboardPage.refusal_of d q = None) ->
  exists p s a,
    DashboardPage.participantsResult d = DashboardPage.Fulfilled p
    /\ DashboardPage.submissionsResult d = DashboardPage.Fulfilled s
    /\ DashboardPage.activityResult d = DashboardPage.Fulfilled a
    /\ DashboardPage.promise_all d order = DashboardPage.Fulfilled (p, s, a).
Proof.
  intros Hn. pose proof (promise_all_spec d order) as Hs.
  destruct (DashboardPage.promise_all d order) as [[[p s] a] | e].
  - destruct Hs as (H1 & H2 & H3). exists p, s, a. auto.
  - destruct Hs as (q & Hq). exfalso.
    destruct q; try discriminate;
      rewrite Hn in Hq by (unfold three_queries; simpl; auto); discriminate.
Qed.

(** X14.  With a client, the dashboard does not throw when a query is
    rejected.  When one of the three queries handed to [Promise.all] is
    rejected it has sent those three and does not send the assignments
    query; when those resolve and the assignments query is rejected it
    has sent all four.  Either way it renders the 'Database not ready'
    card with the message of a rejection (the fallback text when the
    rejection is no [Error]), provided that message is not empty. *)
Theorem dashboard_database_not_ready {Client Activity : Type}
    (percent : N -> N -> N) (supabase : Client)
    (db : Client -> DashboardPage.Database Activity)
    (order : list DashboardPage.query) :
  let page :=
    DashboardPage.Dashboard percent (DashboardPage.Fulfilled supabase) db order in
  ((exists q, In q three_queries
              /\ DashboardPage.refusal_of (db supabase) q <> None) ->
   exists q e,
     DashboardPage.refusal_of (db supabase) q = Some e
     /\ fst page = three_queries
     /\ forall m,
          truthy (Some (DashboardPage.message_or e
                          "Failed to load data from database.")) = Some m ->
          snd page = DashboardPage.DatabaseNotReady m)
  /\ ((forall q, In q three_queries ->
                 DashboardPage.refusal_of (db supabase) q = None) ->
      forall e,
        DashboardPage.assignmentsResult (db supabase) = DashboardPage.Refused e ->
        fst page = four_queries
        /\ forall m,
             truthy (Some (DashboardPage.message_or e
                             "Failed to load data from database.")) = Some m ->
             snd page = DashboardPage.DatabaseNotReady m).
Proof.
  cbv zeta. split.
  - intros (q & Hin & Hq).
    unfold DashboardPage.Dashboard, DashboardPage.fetch.
    pose proof (promise_all_spec (db supabase) order) as Hs.
    destruct (DashboardPage.promise_all (db supabase) order) as [[[p s] a] | e].
    + destruct Hs as (H1 & H2 & H3). exfalso. apply Hq.
      destruct Hin as [<- | [<- | [<- | []]]]; simpl;
        [ now rewrite H1 | now rewrite H2 | now rewrite H3 ].
    + destruct Hs as (q' & Hq'). exists q', e. split3; trivial.
      intros m Hm. cbn [snd DashboardPage.fetchError]. now rewrite Hm.
  - intros Hn e He.
    destruct (promise_all_fulfilled (db supabase) order Hn)
      as (p & s & a & _ & _ & _ & Hall).
    unfold DashboardPage.Dashboard, DashboardPage.fetch. rewrite Hall, He.
    split; [ reflexivity | ].
    intros m Hm. cbn [snd DashboardPage.fetchError]. now rewrite Hm.
Qed.

Lemma dashboard_database_not_ready_witness :
  exists q e,
    DashboardPage.refusal_of Scenario.broken q = Some e
    /\ fst (DashboardPage.Dashboard (fun _ _ => 0%N)
              (DashboardPage.Fulfilled tt) (fun _ => Scenario.broken)
              [DashboardPage.recent_activity; DashboardPage.count_submissions])
       = three_queries.
Proof.
  destruct (proj1 (dashboard_database_not_ready (fun _ _ => 0%N) tt
                     (fun _ => Scenario.broken)
                     [DashboardPage.recent_activity;
                      DashboardPage.count_submissions]))
    as (q & e & H1 & H2 & _).
  - exists DashboardPage.count_submissions. split; [ simpl; auto | discriminate ].
  - exists q, e. now split.
Defined.

(** X15.  A rejection that is an [Error] with an empty message is not
    reported: [fetchError] is then the empty string, which the page
    takes for no error.  When the three first queries resolve and the
    assignments query is rejected that way, the page renders the
    statistics with the participant and submission counts it read, zero
    assignments and a completion rate of zero; when every rejection among
    the three first queries is of that kind, it renders all zeros and an
    empty feed. *)
Theorem dashboard_silent_failure {Client Activity : Type}
    (percent : N -> N -> N) (supabase : Client)
    (db : Client -> DashboardPage.Database Activity)
    (order : list DashboardPage.query) :
  let page :=
    DashboardPage.Dashboard percent (DashboardPage.Fulfilled supabase) db order in
  ((exists q, In q three_queries
              /\ DashboardPage.refusal_of (db supabase) q <> None) ->
   (forall q e, DashboardPage.refusal_of (db supabase) q = Some e ->
                e = DashboardPage.ThrownError "") ->
   page = (three_queries, DashboardPage.Statistics 0 0 0 0 []))
  /\ ((forall q, In q three_queries ->
                 DashboardPage.refusal_of (db supabase) q = None) ->
      DashboardPage.assignmentsResult (db supabase)
      = DashboardPage.Refused (DashboardPage.ThrownError "") ->
      exists p s a,
        DashboardPage.participantsResult (db supabase) = DashboardPage.Fulfilled p
        /\ DashboardPage.submissionsResult (db supabase) = DashboardPage.Fulfilled s
        /\ DashboardPage.activityResult (db supabase) = DashboardPage.Fulfilled a
        /\ page = (four_queries,
                   DashboardPage.Statistics
                     (DashboardPage.or_default p 0%N)
                     (DashboardPage.or_default s 0%N) 0 0
                     (DashboardPage.or_default a []))).
Proof.
  cbv zeta. split.
  - intros (q & Hin & Hq) Hsilent.
    unfold DashboardPage.Dashboard, DashboardPage.fetch.
    pose proof (promise_all_spec (db supabase) order) as Hs.
    destruct (DashboardPage.promise_all (db supabase) order) as [[[p s] a] | e].
    + destruct Hs as (H1 & H2 & H3). exfalso. apply Hq.
      destruct Hin as [<- | [<- | [<- | []]]]; simpl;
        [ now rewrite H1 | now rewrite H2 | now rewrite H3 ].
    + destruct Hs as (q' & Hq'). rewrite (Hsilent q' e Hq'). reflexivity.
  - intros Hn He.
    destruct (promise_all_fulfilled (db supabase) order Hn)
      as (p & s & a & H1 & H2 & H3 & Hall).
    exists p, s, a. split; [ | split; [ | split ] ]; trivial.
    unfold DashboardPage.Dashboard, DashboardPage.fetch. rewrite Hall, He.
    cbn [DashboardPage.participantCount DashboardPage.assignmentCount
         DashboardPage.submissionCount DashboardPage.activities
         DashboardPage.fetchError DashboardPage.message_or truthy String.eqb].
    now rewrite N.mul_0_r.
Qed.

Lemma dashboard_silent_failure_witness :
  DashboardPage.Dashboard (fun _ _ => 100%N) (DashboardPage.Fulfilled tt)
    (fun _ => Scenario.silent) []
  = (four_queries, DashboardPage.Statistics 8 5 0 0 []).
Proof.
  destruct (proj2 (dashboard_silent_failure (fun _ _ => 100%N) tt
                     (fun _ => Scenario.silent) []))
    as (p & s & a & H1 & H2 & H3 & H).
  - intros q [<- | [<- | [<- | []]]]; reflexivity.
  - reflexivity.
  - injection H1 as <-. injection H2 as <-. injection H3 as <-. exact H.
Defined.

(** X16.  The completion rate never divides by zero: the rounding
    [Math.round((s / t) * 100)] is only ever applied to a positive total
    t, so the page is the same for any two roundings that agree on
    positive totals; and whenever the page shows statistics, the rate is
    0 if there are no participants or no assignments, and the rounding of
    submissions over participants times assignments otherwise. *)
Theorem dashboard_completion_rate {Client Activity : Type}
    (percent : N -> N -> N) (client : DashboardPage.settled Client)
    (db : Client -> DashboardPage.Database Activity)
    (order : list DashboardPage.query) :
  (forall percent' : N -> N -> N,
     (forall s t, (0 < t)%N -> percent s t = percent' s t) ->
     DashboardPage.Dashboard percent client db order
     = DashboardPage.Dashboard percent' client db order)
  /\ match snd (DashboardPage.Dashboard percent client db order) with
     | DashboardPage.Statistics participants submissions rate assignments _ =>
         ((participants = 0 \/ assignments = 0)%N -> rate = 0%N)
         /\ ((0 < participants * assignments)%N ->
             rate = percent submissions (participants * assignments)%N)
     | _ => True
     end.
Proof.
  unfold DashboardPage.Dashboard. destruct client as [supabase | e];
    [ | split; [ reflexivity | exact I ] ].
  destruct (DashboardPage.fetch (db supabase) order) as [sent f].
  split.
  - intros percent' H.
    destruct (0 <? DashboardPage.participantCount f
                   * DashboardPage.assignmentCount f)%N eqn:Hpos;
      [ | reflexivity ].
    apply N.ltb_lt in Hpos. now rewrite (H _ _ Hpos).
  - cbn [snd]. destruct (truthy (DashboardPage.fetchError f)); [ exact I | ].
    split.
    + intros Hz.
      assert (DashboardPage.participantCount f
              * DashboardPage.assignmentCount f = 0)%N as ->
        by (destruct Hz as [-> | ->]; lia).
      reflexivity.
    + intros Hpos. apply N.ltb_lt in Hpos. now rewrite Hpos.
Qed.

(** X17.  When all four queries resolve, whatever the order in which the
    three first settle, the dashboard sends the four queries and renders
    the statistics, a missing count ([null]) counting as 0 and a missing
    activity list as the empty feed. *)
Theorem dashboard_statistics {Client Activity : Type}
    (percent : N -> N -> N) (supabase : Client)
    (db : Client -> DashboardPage.Database Activity)
    (order : list DashboardPage.query)
    (p s c : option N) (a : option (list Activity)) :
  DashboardPage.participantsResult (db supabase) = DashboardPage.Fulfilled p ->
  DashboardPage.submissionsResult (db supabase) = DashboardPage.Fulfilled s ->
  DashboardPage.activityResult (db supabase) = DashboardPage.Fulfilled a ->
  DashboardPage.assignmentsResult (db supabase) = DashboardPage.Fulfilled c ->
  let participants := DashboardPage.or_default p 0%N in
  let assignments := DashboardPage.or_default c 0%N in
  DashboardPage.Dashboard percent (DashboardPage.Fulfilled supabase) db order
  = (four_queries,
     DashboardPage.Statistics participants (DashboardPage.or_default s 0%N)
       (if (0 <? participants * assignments)%N
        then percent (DashboardPage.or_default s 0%N)
                     (participants * assignments)%N
        else 0%N)
       assignments (DashboardPage.or_default a [])).
Proof.
  intros H1 H2 H3 H4. cbv zeta.
  destruct (promise_all_fulfilled (db supabase) order)
    as (p' & s' & a' & H1' & H2' & H3' & Hall).
  { intros q [<- | [<- | [<- | []]]]; simpl;
      [ now rewrite H1 | now rewrite H2 | now rewrite H3 ]. }
  assert (p' = p) as -> by congruence.
  assert (s' = s) as -> by congruence.
  assert (a' = a) as -> by congruence.
  unfold DashboardPage.Dashboard, DashboardPage.fetch. rewrite Hall, H4.
  reflexivity.
Qed.

Lemma dashboard_statistics_witness :
  DashboardPage.Dashboard (fun _ _ => 100%N) (DashboardPage.Fulfilled tt)
    (fun _ => Scenario.fresh) [DashboardPage.count_assignments]
  = (four_queries, DashboardPage.Statistics 0 0 0 10 []).
Proof.
  exact (dashboard_statistics (fun _ _ => 100%N) tt (fun _ => Scenario.fresh)
           [DashboardPage.count_assignments] None (Some 0%N) (Some 10%N)
           (Some []) eq_refl eq_refl eq_refl eq_refl).
Defined.
